(** * The segmentation pipeline of [src/segment.py]

    A shallow embedding of the Prefect flow [segment] and of its tasks:
    [reduce_dimension], [get_3d_projection], [create_3d_plot],
    [get_best_k_cluster], [get_clusters_model], [save_model], [predict],
    [insert_clusters_to_df] and [plot_clusters].

    The tasks are thin layers over pandas, scikit-learn, yellowbrick,
    matplotlib and Prefect.  What these libraries compute numerically
    (singular value decomposition, Lloyd iterations, nearest centres in
    floating point, knee detection) and what they draw is kept behind
    interfaces ([Interp], [Sklearn], [Yellowbrick], [Orchestration]); what they
    check and how they are wired together is written out. *)

From Stdlib Require Import Ascii String QArith Qabs.
From stdpp Require Import base option list strings pretty gmap fin_maps.

Local Open Scope string_scope.
Local Open Scope list_scope.

(** ** Python results and exceptions *)

(** An exception is identified by the name of its class. *)
Definition exn := string.

Inductive result (A : Type) : Type :=
  | Ok (a : A)
  | Err (e : exn).
Arguments Ok {A} a.
Arguments Err {A} e.

Global Instance result_ret : MRet result := λ A, Ok.
Global Instance result_bind : MBind result :=
  λ A B f m, match m with Ok a => f a | Err e => Err e end.

Definition is_ok {A} (r : result A) : bool :=
  match r with Ok _ => true | Err _ => false end.

(** ** pandas: the fragment of [DataFrame] the tasks use *)

(** A cell is a float (idealised as a rational), an integer (cluster
    labels), a text, or the missing value [NaN]. *)
Inductive cell :=
  | Num (q : Q)
  | Int (z : Z)
  | Txt (s : string)
  | NaN.

Global Instance cell_inhabited : Inhabited cell := populate (Int 0).

(** Rows are kept in order; row [i] of [rows] holds one cell per entry of
    [columns].  Row labels are left out: no task aligns on them (every
    value merged into a frame is a positional NumPy array). *)
Record DataFrame := {
  columns : list string;
  rows : list (list cell);
}.

Definition Series := list cell.

Definition wf_frame (df : DataFrame) : Prop :=
  Forall (λ r, length r = length (columns df)) (rows df).

(** [len(df)] *)
Definition len (df : DataFrame) : nat := length (rows df).

Definition column_index (name : string) (cols : list string) : option nat :=
  fst <$> list_find (λ c, c = name) cols.

(** [df[name]]: the column labelled [name]; [KeyError] when there is none. *)
Definition getitem (df : DataFrame) (name : string) : result Series :=
  match column_index name (columns df) with
  | Some i => Ok (map (λ r : list cell, r !!! i) (rows df))
  | None => Err "KeyError"
  end.

(** The frame with column [name] set to [vals]: an existing column keeps
    its position and gets the new values, a new one is appended. *)
Definition set_column (name : string) (vals : Series) (df : DataFrame) : DataFrame :=
  match column_index name (columns df) with
  | Some i =>
      {| columns := columns df;
         rows := zip_with (λ r v, <[i := v]> r) (rows df) vals |}
  | None =>
      {| columns := columns df ++ [name];
         rows := zip_with (λ r v, r ++ [v]) (rows df) vals |}
  end.

(** pandas' [_ensure_valid_index]: a frame without rows takes its index
    from the first non-empty array set into it, and the columns it had are
    filled with [NaN]. *)
Definition ensure_valid_index (vals : Series) (df : DataFrame) : DataFrame :=
  match rows df, vals with
  | [], _ :: _ =>
      {| columns := columns df;
         rows := map (λ _, map (λ _, NaN) (columns df)) vals |}
  | _, _ => df
  end.

(** What [df[name] = vals] makes of the frame, for an array [vals]:
    pandas refuses an array whose length is not that of the index. *)
Definition frame_setitem (name : string) (vals : Series) (df : DataFrame) :
    result DataFrame :=
  let df' := ensure_valid_index vals df in
  if decide (length vals = len df') then Ok (set_column name vals df')
  else Err "ValueError".

(** [df.assign(name=vals)]: the assignment is made on a copy, [df] itself
    is not touched. *)
Definition assign (df : DataFrame) (name : string) (vals : Series) : result DataFrame :=
  frame_setitem name vals df.

(** [pd.DataFrame(arr, columns=names)] for a two-dimensional array [arr]:
    [ValueError] when the number of names is not the width of [arr]. *)
Definition DataFrame_of_array (arr : list (list Q)) (names : list string) : result DataFrame :=
  if forallb (λ r, Nat.eqb (length r) (length names)) arr
  then Ok {| columns := names; rows := map (map Num) arr |}
  else Err "ValueError".

(** ** [get_3d_projection] *)

Record Projection := { proj_x : Series; proj_y : Series; proj_z : Series }.

Definition get_3d_projection (pca_df : DataFrame) : result Projection :=
  x ← getitem pca_df "col1";
  y ← getitem pca_df "col2";
  z ← getitem pca_df "col3";
  mret {| proj_x := x; proj_y := y; proj_z := z |}.

(** ** scikit-learn: the objects the tasks build *)

Inductive clusterer := AgglomerativeClustering | KMeans | SpectralClustering.

(** What [fit] leaves on an estimator: one label per training row and, for
    [KMeans] only, the centres ([cluster_centers_]). *)
Record Fitted := {
  labels_ : list nat;
  cluster_centers_ : list (list Q);
}.

(** [n_clusters] holds whatever the caller passed, [None] included: the
    constructors check nothing, validation happens in [fit]. *)
Record Estimator := {
  est_class : clusterer;
  n_clusters : option Z;
  fitted : option Fitted;
}.

Definition default_n_clusters (c : clusterer) : Z :=
  match c with
  | AgglomerativeClustering => 2
  | KMeans => 8
  | SpectralClustering => 8
  end.

Definition set_params (k : option Z) (e : Estimator) : Estimator :=
  {| est_class := est_class e; n_clusters := k; fitted := fitted e |}.

(** ** Python objects a name of the module can stand for *)

Inductive pyobj :=
  | ClustererClass (c : clusterer)
  | PCAClass
  | ClustererObj (e : Estimator)
  | PCAObj
  | NotCallable (origin : string)   (* a string, [None], a module, a loader *)
  | Opaque (origin : string).

(** ** The state a run acts on *)

Record world := {
  frames : gmap nat DataFrame;     (* DataFrame objects in memory, by address *)
  files : gmap string DataFrame;   (* the csv artifacts on disk, by path *)
  bento : gmap string pyobj;       (* the BentoML model store, by name *)
  rng : nat;                       (* state of NumPy's global generator *)
  trace : list string;             (* names of the tasks whose body ran;
                                      their order stands for nothing *)
}.

Definition M (A : Type) : Type := world → result A * world.

Global Instance M_ret : MRet M := λ A a w, (Ok a, w).
Global Instance M_bind : MBind M :=
  λ A B f m w, match m w with
               | (Ok a, w') => f a w'
               | (Err e, w') => (Err e, w')
               end.

(** [m] leaves the part [part] of the world as it found it. *)
Definition keeps {A B} (part : world → B) (m : M A) : Prop :=
  ∀ w, part (m w).2 = part w.

Definition keeps_trace {A} (m : M A) : Prop := keeps trace m.

(** The generator moves on; nothing else changes. *)
Definition with_rng (s : nat) (w : world) : world :=
  {| frames := frames w; files := files w; bento := bento w; rng := s;
     trace := trace w |}.

Definition lift {A} (r : result A) : M A := λ w, (r, w).
Definition raise {A} (e : exn) : M A := λ w, (Err e, w).

(** ** Name resolution and [eval] *)

Definition is_alpha (c : ascii) : bool :=
  let n := nat_of_ascii c in
  ((65 <=? n) && (n <=? 90) || (97 <=? n) && (n <=? 122) || (n =? 95))%nat.

Definition is_alnum (c : ascii) : bool :=
  let n := nat_of_ascii c in
  is_alpha c || ((48 <=? n) && (n <=? 57))%nat.

Fixpoint all_chars (p : ascii → bool) (s : string) : bool :=
  match s with
  | EmptyString => true
  | String c s' => p c && all_chars p s'
  end.

Definition keywords : list string :=
  [ "False"; "None"; "True"; "and"; "as"; "assert"; "async"; "await";
    "break"; "class"; "continue"; "def"; "del"; "elif"; "else"; "except";
    "finally"; "for"; "from"; "global"; "if"; "import"; "in"; "is";
    "lambda"; "nonlocal"; "not"; "or"; "pass"; "raise"; "return"; "try";
    "while"; "with"; "yield" ].

(** A string that is one Python name (an ASCII identifier, not a keyword). *)
Definition is_name (s : string) : bool :=
  match s with
  | EmptyString => false
  | String c s' => is_alpha c && all_chars is_alnum s'
  end && negb (bool_decide (s ∈ keywords)).

(** The names [segment.py] binds at module level: its imports (lines 1-18),
    its constants (lines 20-26) and its functions. *)
Definition module_opaque_names : list string :=
  [ "Tuple"; "plt"; "np"; "pd"; "to_absolute_path"; "DictConfig"; "Flow";
    "task"; "LocalResult"; "PandasSerializer"; "KElbowVisualizer"; "wandb";
    "log_data"; "artifact_task"; "bentoml";
    "TASK_OUTPUT"; "reduce_dimension"; "get_3d_projection"; "create_3d_plot";
    "get_best_k_cluster"; "get_clusters_model"; "save_model"; "predict";
    "insert_clusters_to_df"; "plot_clusters"; "segment" ].

(** The names every module has from the import system, and the two string
    constants of [segment.py].  They stand for a string, [None], a module,
    a loader or a module spec: objects that cannot be called. *)
Definition module_data_names : list string :=
  [ "__name__"; "__doc__"; "__package__"; "__loader__"; "__spec__";
    "__file__"; "__cached__"; "__builtins__"; "OUTPUT_DIR"; "OUTPUT_FILE" ].

Definition module_globals : gmap string pyobj :=
  list_to_map
    ([ ("AgglomerativeClustering", ClustererClass AgglomerativeClustering);
       ("KMeans", ClustererClass KMeans);
       ("SpectralClustering", ClustererClass SpectralClustering);
       ("PCA", PCAClass) ]
     ++ map (λ n, (n, NotCallable n)) module_data_names
     ++ map (λ n, (n, Opaque n)) module_opaque_names).

(** The two shapes of call the tasks make on what [eval] returns:
    [f()] and [f(n_clusters=k)]. *)
Inductive call_args :=
  | NoArgs
  | NClusters (k : option Z).

(** What the tasks hand to [wandb.log]. *)
Inductive logged :=
  | Image (path : string)
  | BestK (k : option Z)
  | BestScore (q : Q).

(** The rest of the interpreter.  [eval] of a string that is not a single
    name runs arbitrary code, and objects other than the scikit-learn
    classes above behave as they please; both are left open here.  So is
    what matplotlib and wandb do with the values they are given:
    [ax_scatter xyz c] stands for [ax.scatter(x, y, z, ...)], with
    [c=...] when [c] is given, [savefig path] for writing the current
    figure and [wandb_log] for [wandb.log].  Each of them may raise. *)
Class Interp := {
  builtins : gset string;
  eval_expression : list string → string → M pyobj;
  call_opaque : pyobj → call_args → M pyobj;
  fit_opaque : pyobj → DataFrame → M pyobj;
  predict_opaque : pyobj → DataFrame → M Series;
  elbow_opaque : pyobj → string → DataFrame → M (option Z);
  ax_scatter : Projection → option Series → M unit;
  savefig : string → M unit;
  wandb_log : list (string * logged) → M unit;

  (* [trace] is the model's own log: no Python code can reach it *)
  eval_expression_trace : ∀ ls s, keeps_trace (eval_expression ls s);
  call_opaque_trace : ∀ o a, keeps_trace (call_opaque o a);
  fit_opaque_trace : ∀ o df, keeps_trace (fit_opaque o df);
  predict_opaque_trace : ∀ o df, keeps_trace (predict_opaque o df);
  elbow_opaque_trace : ∀ o m df, keeps_trace (elbow_opaque o m df);
  ax_scatter_trace : ∀ p c, keeps_trace (ax_scatter p c);
  savefig_trace : ∀ path, keeps_trace (savefig path);
  wandb_log_trace : ∀ kv, keeps_trace (wandb_log kv);

  (* drawing and logging read their arguments and change no frame *)
  ax_scatter_frames : ∀ p c, keeps frames (ax_scatter p c);
  savefig_frames : ∀ path, keeps frames (savefig path);
  wandb_log_frames : ∀ kv, keeps frames (wandb_log kv);
}.

Section Eval.
Context `{!Interp}.

(** [eval(s)] inside a function whose local names are [locals]: a name is
    looked up in the locals, the module globals and the builtins, in that
    order; [NameError] when it is bound in none. *)
Definition py_eval (locals : list string) (s : string) : M pyobj :=
  if is_name s then
    if bool_decide (s ∈ locals) then mret (Opaque s)
    else match module_globals !! s with
         | Some o => mret o
         | None =>
             if bool_decide (s ∈ builtins) then mret (Opaque s)
             else raise "NameError"
         end
  else eval_expression locals s.

(** Calling what [eval] returned.  A clusterer class accepts [n_clusters]
    and builds an unfitted estimator; [PCA] has no such parameter. *)
Definition py_call (f : pyobj) (args : call_args) : M pyobj :=
  match f, args with
  | ClustererClass c, NoArgs =>
      mret (ClustererObj {| est_class := c;
                            n_clusters := Some (default_n_clusters c);
                            fitted := None |})
  | ClustererClass c, NClusters k =>
      mret (ClustererObj {| est_class := c; n_clusters := k; fitted := None |})
  | PCAClass, NoArgs => mret PCAObj
  | PCAClass, NClusters _ => raise "TypeError"
  | NotCallable _, _ => raise "TypeError"
  | _, _ => call_opaque f args
  end.
End Eval.

(** ** scikit-learn: input checks, [PCA], the clusterers *)

Definition matrix := list (list Q).

Record PCAModel := {
  mean_ : list Q;
  components_ : matrix;
}.

Definition is_digit (c : ascii) : bool :=
  let n := nat_of_ascii c in ((48 <=? n) && (n <=? 57))%nat.

(** An ASCII character that is no digit. *)
Definition plain_nondigit (c : ascii) : bool :=
  negb (is_digit c) && (nat_of_ascii c <? 128)%nat.

(** The numerical code of the library.  [text_to_float] is the conversion
    of a text cell by [check_array]: the float the text reads as, when it
    reads as a finite one.  The kernels [pca_fit] and [cluster_fit] take
    the state of the random generator and return the new one;
    [kmeans_predict centers X] is the labelling [KMeans.predict] computes
    in floating point.  The fields after them record what the library
    documents about their results. *)
Class Sklearn := {
  text_to_float : string → option Q;
  pca_fit : nat → Z → matrix → result PCAModel * nat;
  cluster_fit : clusterer → nat → option Z → matrix → result Fitted * nat;
  kmeans_predict : matrix → matrix → list nat;

  text_to_float_digit : ∀ s,
    all_chars plain_nondigit s = true → text_to_float s = None;

  pca_fit_ok : ∀ s n X c,
    X ≠ [] → c ≠ 0%nat → Forall (λ r, length r = c) X →
    (0 ≤ n)%Z → (n ≤ Z.of_nat (length X))%Z → (n ≤ Z.of_nat c)%Z →
    is_ok (pca_fit s n X).1 = true;
  pca_fit_components : ∀ s n X m,
    (pca_fit s n X).1 = Ok m → length (components_ m) = Z.to_nat n;
  pca_fit_too_many : ∀ s n X c,
    Forall (λ r, length r = c) X →
    (Z.of_nat (length X) < n ∨ Z.of_nat c < n)%Z →
    (pca_fit s n X).1 = Err "ValueError";
  pca_fit_negative : ∀ s n X,
    (n < 0)%Z → (pca_fit s n X).1 = Err "ValueError";

  cluster_fit_labels : ∀ c s k X f,
    (cluster_fit c s k X).1 = Ok f → length (labels_ f) = length X;
  kmeans_fit_ok : ∀ s k X,
    (1 ≤ k)%Z → (k ≤ Z.of_nat (length X))%Z →
    is_ok (cluster_fit KMeans s (Some k) X).1 = true;
  kmeans_fit_centers : ∀ s k X f,
    (cluster_fit KMeans s (Some k) X).1 = Ok f →
    (1 ≤ k)%Z ∧ length (cluster_centers_ f) = Z.to_nat k;
  kmeans_fit_width : ∀ s k X f c,
    (cluster_fit KMeans s (Some k) X).1 = Ok f →
    Forall (λ r, length r = c) X →
    Forall (λ r, length r = c) (cluster_centers_ f);
  kmeans_fit_too_many : ∀ s k X,
    (Z.of_nat (length X) < k)%Z →
    (cluster_fit KMeans s (Some k) X).1 = Err "ValueError";

  kmeans_predict_length : ∀ centers X,
    length (kmeans_predict centers X) = length X;
  kmeans_predict_range : ∀ centers X,
    centers ≠ [] → Forall (λ j, j < length centers) (kmeans_predict centers X);
}.

Definition dot (a b : list Q) : Q :=
  foldr Qplus 0%Q (zip_with Qmult a b).

Section Estimators.
Context `{!Sklearn}.

(** [NaN] is refused by [check_array], as is a text that does not read as
    a finite float. *)
Definition to_float (c : cell) : option Q :=
  match c with
  | Num q => Some q
  | Int z => Some (inject_Z z)
  | Txt s => text_to_float s
  | NaN => None
  end.

(** [check_array]: every cell must convert to a float, and there must be
    at least one row and one column. *)
Definition to_array (df : DataFrame) : result matrix :=
  match mapM (mapM to_float) (rows df) with
  | None => Err "ValueError"
  | Some X =>
      if bool_decide (rows df = []) || bool_decide (columns df = [])
      then Err "ValueError" else Ok X
  end.

Definition pca_transform (m : PCAModel) (X : matrix) : matrix :=
  map (λ r, map (dot (zip_with Qminus r (mean_ m))) (components_ m)) X.

(** [PCA(n_components=n).fit_transform(df)] *)
Definition PCA_fit_transform (n : Z) (df : DataFrame) : M matrix :=
  λ w, match to_array df with
       | Err e => (Err e, w)
       | Ok X =>
           let '(r, s) := pca_fit (rng w) n X in
           match r with
           | Ok m => (Ok (pca_transform m X), with_rng s w)
           | Err e => (Err e, with_rng s w)
           end
       end.

(** [e.fit(df)]: returns the estimator itself, now fitted. *)
Definition est_fit (e : Estimator) (df : DataFrame) : M Estimator :=
  λ w, match to_array df with
       | Err x => (Err x, w)
       | Ok X =>
           let '(r, s) := cluster_fit (est_class e) (rng w) (n_clusters e) X in
           match r with
           | Ok f => (Ok {| est_class := est_class e;
                            n_clusters := n_clusters e;
                            fitted := Some f |}, with_rng s w)
           | Err x => (Err x, with_rng s w)
           end
       end.

(** [e.predict(df)].  Of the three classes only [KMeans] has a [predict]
    method: it checks the data as [fit] does, wants as many features as
    the centres have, and labels every row with the position of a
    centre. *)
Definition est_predict (e : Estimator) (df : DataFrame) : result Series :=
  match est_class e with
  | KMeans =>
      match fitted e with
      | None => Err "NotFittedError"
      | Some f =>
          X ← to_array df;
          if forallb (λ r, forallb (λ c, Nat.eqb (length c) (length r))
                             (cluster_centers_ f)) X
          then Ok (map (λ j, Int (Z.of_nat j))
                     (kmeans_predict (cluster_centers_ f) X))
          else Err "ValueError"
      end
  | AgglomerativeClustering | SpectralClustering => Err "AttributeError"
  end.
End Estimators.

(** ** yellowbrick: [KElbowVisualizer] *)

(** The scores and the knee detector are numerical code of the library. *)
Class Yellowbrick := {
  scoring_metric : string → DataFrame → list nat → result Q;
  knee_locator : string → list Z → list Q → option Z;
}.

Definition KELBOW_SCOREMAP : list string :=
  [ "distortion"; "silhouette"; "calinski_harabasz" ].

Record KElbow := {
  estimator : Estimator;
  elbow_metric : string;
  k_values_ : list Z;
  k_scores_ : list Q;
  elbow_value_ : option Z;
  elbow_score_ : Q;
}.

Section Elbow.
Context `{!Sklearn, !Yellowbrick}.

(** [KElbowVisualizer(model, metric=metric)]; [k] keeps its default 10,
    which stands for the candidates [range(2, 11)]. *)
Definition KElbowVisualizer (model : Estimator) (metric : string) : result KElbow :=
  if bool_decide (metric ∈ KELBOW_SCOREMAP) then
    Ok {| estimator := model; elbow_metric := metric;
          k_values_ := [2; 3; 4; 5; 6; 7; 8; 9; 10]%Z; k_scores_ := [];
          elbow_value_ := None; elbow_score_ := 0%Q |}
  else Err "YellowbrickValueError".

(** The loop of [KElbowVisualizer.fit]: refit the estimator at every
    candidate [k] and score the labels it found. *)
Fixpoint kelbow_scores (e : Estimator) (metric : string) (X : DataFrame)
    (ks : list Z) : M (Estimator * list Q) :=
  match ks with
  | [] => mret (e, [])
  | k :: ks' =>
      e1 ← est_fit (set_params (Some k) e) X;
      s ← lift (scoring_metric metric X
                  (from_option labels_ [] (fitted e1)));
      '(e2, ss) ← kelbow_scores e1 metric X ks';
      mret (e2, s :: ss)
  end.

Definition score_at (ks : list Z) (ss : list Q) (k : Z) : Q :=
  from_option (λ i, default 0%Q (ss !! i)) 0%Q
    (fst <$> list_find (λ k', k' = k) ks).

(** [elbow.fit(X)]: when the detector finds no knee, [elbow_value_] is
    [None] and [elbow_score_] is 0 (the library only warns). *)
Definition kelbow_fit (v : KElbow) (X : DataFrame) : M KElbow :=
  '(e, ss) ← kelbow_scores (estimator v) (elbow_metric v) X (k_values_ v);
  let knee := knee_locator (elbow_metric v) (k_values_ v) ss in
  mret {| estimator := e; elbow_metric := elbow_metric v;
          k_values_ := k_values_ v; k_scores_ := ss;
          elbow_value_ := knee;
          elbow_score_ := match knee with
                          | Some k => score_at (k_values_ v) ss k
                          | None => 0%Q
                          end |}.
End Elbow.

(** ** The tasks of [segment.py] *)

Record SegmentConfig := {
  algorithm : string;
  metric : string;
}.

Section Tasks.
Context `{!Interp, !Sklearn, !Yellowbrick}.

Definition reduce_dimension (df : DataFrame) (n_components : Z)
    (columns : list string) : M DataFrame :=
  arr ← PCA_fit_transform n_components df;
  lift (DataFrame_of_array arr columns).

(** Creating a figure and its axes takes constants only and is taken to
    succeed, here and below; what is drawn, saved and logged depends on
    the task's arguments and may raise. *)
Definition create_3d_plot (projection : Projection) (image_path : string) : M unit :=
  ax_scatter projection None;;
  savefig image_path;;
  wandb_log [("pca", Image image_path)].

Definition get_best_k_cluster (pca_df : DataFrame) (cluster_config : SegmentConfig)
    (image_path : string) : M (option Z) :=
  cls ← py_eval ["pca_df"; "cluster_config"; "image_path"; "fig"; "ax"]
                (algorithm cluster_config);
  model ← py_call cls NoArgs;
  match model with
  | ClustererObj e =>
      elbow ← lift (KElbowVisualizer e (metric cluster_config));
      elbow ← kelbow_fit elbow pca_df;
      savefig image_path;;
      let k_best := elbow_value_ elbow in
      wandb_log [("elbow", Image image_path); ("k_best", BestK k_best);
                 ("score_best", BestScore (elbow_score_ elbow))];;
      mret k_best
  | PCAObj => raise "YellowbrickTypeError"
  | _ => elbow_opaque model (metric cluster_config) pca_df
  end.

Definition get_clusters_model (pca_df : DataFrame) (algorithm : string)
    (k : option Z) : M pyobj :=
  cls ← py_eval ["pca_df"; "algorithm"; "k"] algorithm;
  model ← py_call cls (NClusters k);
  match model with
  | ClustererObj e => e' ← est_fit e pca_df; mret (ClustererObj e')
  | _ => fit_opaque model pca_df
  end.

(** [bentoml.sklearn.save(name, model)] *)
Definition save_model (model : pyobj) (name : string) : M unit :=
  λ w, (Ok (), {| frames := frames w; files := files w;
                  bento := <[name := model]> (bento w);
                  rng := rng w; trace := trace w |}).

Definition predict (model : pyobj) (pca_df : DataFrame) : M Series :=
  match model with
  | ClustererObj e => lift (est_predict e pca_df)
  | _ => predict_opaque model pca_df
  end.

Definition insert_clusters_to_df (df : DataFrame) (clusters : Series) : M DataFrame :=
  lift (assign df "clusters" clusters).

(** [pca_df["clusters"] = preds] assigns into the frame the caller
    passed: [pca_df] is given by address. *)
Definition setitem (l : nat) (name : string) (vals : Series) : M unit :=
  λ w, match frames w !! l with
       | Some df =>
           match frame_setitem name vals df with
           | Ok df' => (Ok (), {| frames := <[l := df']> (frames w);
                                  files := files w; bento := bento w;
                                  rng := rng w; trace := trace w |})
           | Err e => (Err e, w)
           end
       | None => (Err "ReferenceError", w)
       end.

Definition deref (l : nat) : M DataFrame :=
  λ w, match frames w !! l with
       | Some df => (Ok df, w)
       | None => (Err "ReferenceError", w)
       end.

Definition plot_clusters (pca_df : nat) (preds : Series) (projections : Projection)
    (image_path : string) : M unit :=
  setitem pca_df "clusters" preds;;
  df ← deref pca_df;
  c ← lift (getitem df "clusters");
  ax_scatter projections (Some c);;
  savefig image_path;;
  wandb_log [("clusters", Image image_path)].
End Tasks.

(** ** Prefect: result locations *)

Definition lbrace : ascii := "{"%char.
Definition rbrace : ascii := "}"%char.

(** [str.format] with keyword arguments [kwargs], for templates made of text, doubled braces
    and [{name}] fields.  [field] is the name being read, if any. *)
Fixpoint format_from (kwargs : list (string * string)) (field : option string)
    (s : string) : result string :=
  match s with
  | EmptyString =>
      match field with
      | None => Ok ""
      | Some _ => Err "ValueError"
      end
  | String c s' =>
      match field with
      | Some f =>
          if Ascii.eqb c rbrace then
            match list_find (λ kv, kv.1 = f) kwargs with
            | Some (_, (_, v)) => r ← format_from kwargs None s'; Ok (v +:+ r)
            | None => Err "KeyError"
            end
          else format_from kwargs (Some (f +:+ String c "")) s'
      | None =>
          if Ascii.eqb c lbrace then
            match s' with
            | String c' s'' =>
                if Ascii.eqb c' lbrace
                then r ← format_from kwargs None s''; Ok (String lbrace r)
                else format_from kwargs (Some "") s'
            | EmptyString => Err "ValueError"
            end
          else if Ascii.eqb c rbrace then
            match s' with
            | String c' s'' =>
                if Ascii.eqb c' rbrace
                then r ← format_from kwargs None s''; Ok (String rbrace r)
                else Err "ValueError"
            | EmptyString => Err "ValueError"
            end
          else r ← format_from kwargs None s'; Ok (String c r)
      end
  end.

Definition py_format (template : string) (kwargs : list (string * string)) : result string :=
  format_from kwargs None template.

Fixpoint ends_with_slash (s : string) : bool :=
  match s with
  | EmptyString => false
  | String c EmptyString => Ascii.eqb c "/"%char
  | String _ s' => ends_with_slash s'
  end.

(** [os.path.join(dir, name)] *)
Definition path_join (dir name : string) : string :=
  match name with
  | String c _ =>
      if Ascii.eqb c "/"%char then name
      else if ends_with_slash dir || bool_decide (dir = "") then dir +:+ name
      else dir +:+ "/" +:+ name
  | EmptyString =>
      if ends_with_slash dir || bool_decide (dir = "") then dir else dir +:+ "/"
  end.

(** [LocalResult(dir, location=..., serializer=PandasSerializer("csv", ...))];
    the payload of a file is the frame without its row labels. *)
Record LocalResult := {
  result_dir : string;
  location : string;
}.

Definition OUTPUT_DIR : string := "data/final/".
Definition OUTPUT_FILE : string := "{task_name}.csv".
Definition TASK_OUTPUT : LocalResult :=
  {| result_dir := OUTPUT_DIR; location := OUTPUT_FILE |}.

(** Where a task's result is stored: the location template, formatted with
    the task's context and inputs, under the result's directory. *)
Definition result_location (r : LocalResult) (kwargs : list (string * string)) : result string :=
  name ← py_format (location r) kwargs;
  Ok (path_join (result_dir r) name).

(** What Prefect makes available to a location template: the run context
    ([task_name], [flow_name], ...) and the task's inputs, by name. *)
Definition formatting_kwargs (task_name : string) (inputs : list (string * string)) :
    list (string * string) :=
  inputs ++ [ ("task_name", task_name); ("flow_name", "segmentation") ].

(** ** Prefect: running a flow *)

(** Two settings the module does not fix: whether Prefect writes results
    at all (checkpointing), and whether [artifact_task], which lives in
    [helper.py], makes a task reuse a result already stored at its
    location instead of running. *)
Class Orchestration := {
  checkpointing : bool;
  reuse_stored_result : bool;
}.

(** A flow step: it always leaves a state for its task, never aborts. *)
Definition F (A : Type) : Type := world → A * world.

Global Instance F_ret : MRet F := λ A a w, (a, w).
Global Instance F_bind : MBind F :=
  λ A B f m w, let '(a, w') := m w in f a w'.

Definition log_run (name : string) (w : world) : world :=
  {| frames := frames w; files := files w; bento := bento w; rng := rng w;
     trace := trace w ++ [name] |}.

Definition write_file (path : string) (df : DataFrame) (w : world) : world :=
  {| frames := frames w; files := <[path := df]> (files w); bento := bento w;
     rng := rng w; trace := trace w |}.

(** A new DataFrame object: it gets an address no live object has. *)
Definition alloc (df : DataFrame) : F nat :=
  λ w, let l := fresh (dom (frames w)) in
       (l, {| frames := <[l := df]> (frames w); files := files w;
              bento := bento w; rng := rng w; trace := trace w |}).

Section Flow.
Context `{!Interp, !Sklearn, !Yellowbrick, !Orchestration}.

(** [@task]: the body runs when every upstream task succeeded ([up]
    resolves the upstream results); otherwise the task ends in
    [TRIGGERFAIL] without running.  Nothing is stored, nothing reused. *)
Definition task {A} (name : string) (up : result (M A)) : F (result A) :=
  λ w, match up with
       | Ok body => body (log_run name w)
       | Err _ => (Err "TRIGGERFAIL", w)
       end.

(** [@artifact_task(result=r)]: as [@task], with the result stored at
    the location of [r]. *)
Definition artifact_task (name : string) (r : LocalResult)
    (inputs : list (string * string)) (up : result (M DataFrame)) : F (result nat) :=
  λ w, match up with
       | Err _ => (Err "TRIGGERFAIL", w)
       | Ok body =>
           match result_location r (formatting_kwargs name inputs) with
           | Err e => (Err e, w)
           | Ok path =>
               match (if reuse_stored_result then files w !! path else None) with
               | Some df => let '(l, w1) := alloc df w in (Ok l, w1)
               | None =>
                   match body (log_run name w) with
                   | (Ok df, w1) =>
                       let w2 := if checkpointing then write_file path df w1 else w1 in
                       let '(l, w3) := alloc df w2 in (Ok l, w3)
                   | (Err e, w1) => (Err e, w1)
                   end
               end
           end
       end.
End Flow.

(** ** The flow [segment] *)

Record Config := {
  pca_n_components : Z;
  pca_columns : list string;
  segment_config : SegmentConfig;
  model_name : string;
  image_pca : string;
  image_kmeans : string;
  image_clusters : string;
}.

(** The final state of every task of one run, and where the frames live. *)
Record FlowRun := {
  data_ref : nat;
  st_reduce_dimension : result nat;
  st_get_3d_projection : result Projection;
  st_create_3d_plot : result unit;
  st_get_best_k_cluster : result (option Z);
  st_get_clusters_model : result pyobj;
  st_save_model : result unit;
  st_predict : result Series;
  st_insert_clusters_to_df : result nat;
  st_plot_clusters : result unit;
}.

Section Segment.
Context `{!Interp, !Sklearn, !Yellowbrick, !Orchestration}.

(** The tasks in the order the flow declares them, which respects every
    dependency.  Prefect is free to run tasks that do not depend on each
    other in another order, so the order of the entries of [trace] stands
    for nothing.  [data] is the frame [pd.read_csv] returned.  Registering
    the flow and [log_data] are left out. *)
Definition segment (config : Config) (data : DataFrame) : F FlowRun :=
  data_l ← alloc data;
  pca_df ← artifact_task "reduce_dimension" TASK_OUTPUT
    [("n_components", pretty (pca_n_components config))]
    (Ok (d ← deref data_l;
         reduce_dimension d (pca_n_components config) (pca_columns config)));
  projections ← task "get_3d_projection"
    (l ← pca_df; Ok (d ← deref l; lift (get_3d_projection d)));
  plot ← task "create_3d_plot"
    (p ← projections; Ok (create_3d_plot p (image_pca config)));
  k_best ← task "get_best_k_cluster"
    (l ← pca_df;
     Ok (d ← deref l;
         get_best_k_cluster d (segment_config config) (image_kmeans config)));
  model ← task "get_clusters_model"
    (l ← pca_df; k ← k_best;
     Ok (d ← deref l;
         get_clusters_model d (algorithm (segment_config config)) k));
  saved ← task "save_model"
    (m ← model; Ok (save_model m (model_name config)));
  preds ← task "predict"
    (m ← model; l ← pca_df; Ok (d ← deref l; predict m d));
  merged ← artifact_task "insert_clusters_to_df" TASK_OUTPUT []
    (p ← preds; Ok (d ← deref data_l; insert_clusters_to_df d p));
  shown ← task "plot_clusters"
    (l ← pca_df; p ← preds; pr ← projections;
     Ok (plot_clusters l p pr (image_clusters config)));
  mret {| data_ref := data_l;
          st_reduce_dimension := pca_df;
          st_get_3d_projection := projections;
          st_create_3d_plot := plot;
          st_get_best_k_cluster := k_best;
          st_get_clusters_model := model;
          st_save_model := saved;
          st_predict := preds;
          st_insert_clusters_to_df := merged;
          st_plot_clusters := shown |}.
End Segment.

Definition empty_world : world :=
  {| frames := ∅; files := ∅; bento := ∅; rng := 0; trace := [] |}.

(** ** Reference instances

    Small executable stand-ins for the libraries' numerical code, used to
    run the model on concrete data.  They meet the contracts above; they
    are not the libraries' algorithms. *)

Module Reference.

(** matplotlib stand-in: a scatter is drawn when the axes, and the colours
    if given, have one size. *)
Definition scatter (p : Projection) (c : option Series) : M unit :=
  if Nat.eqb (length (proj_x p)) (length (proj_y p))
     && Nat.eqb (length (proj_y p)) (length (proj_z p))
     && from_option (λ c, Nat.eqb (length c) (length (proj_x p))) true c
  then mret () else raise "ValueError".

Lemma ref_scatter_keeps {B} (part : world → B) p c : keeps part (scatter p c).
Proof. intros w. unfold scatter. by case_match. Qed.

(** An interpreter that knows a few builtins, refuses everything the
    model leaves open, saves every figure and logs every value. *)
Definition interp : Interp :=
  {| builtins := list_to_set
       [ "abs"; "bool"; "dict"; "float"; "int"; "len"; "list"; "max"; "min";
         "object"; "print"; "range"; "set"; "str"; "sum"; "tuple"; "type" ];
     eval_expression := λ _ _, raise "SyntaxError";
     call_opaque := λ _ _, raise "TypeError";
     fit_opaque := λ _ _, raise "AttributeError";
     predict_opaque := λ _ _, raise "AttributeError";
     elbow_opaque := λ _ _ _, raise "YellowbrickTypeError";
     ax_scatter := scatter;
     savefig := λ _, mret ();
     wandb_log := λ _, mret ();
     eval_expression_trace := λ _ _ _, eq_refl;
     call_opaque_trace := λ _ _ _, eq_refl;
     fit_opaque_trace := λ _ _ _, eq_refl;
     predict_opaque_trace := λ _ _ _, eq_refl;
     elbow_opaque_trace := λ _ _ _ _, eq_refl;
     ax_scatter_trace := ref_scatter_keeps trace;
     savefig_trace := λ _ _, eq_refl;
     wandb_log_trace := λ _ _, eq_refl;
     ax_scatter_frames := ref_scatter_keeps frames;
     savefig_frames := λ _ _, eq_refl;
     wandb_log_frames := λ _ _, eq_refl |}.

Definition unit_vector (width i : nat) : list Q :=
  map (λ j, if Nat.eqb i j then 1%Q else 0%Q) (seq 0 width).

Definition column_mean (X : matrix) (j : nat) : Q :=
  Qred (foldr Qplus 0 (map (λ r, default 0 (r !! j)) X)
        / inject_Z (Z.of_nat (length X)))%Q.

Definition width (X : matrix) : nat := from_option length 0%nat (head X).

(** Keeps the first [n] coordinates of the centred data. *)
Definition fit_pca (s : nat) (n : Z) (X : matrix) : result PCAModel * nat :=
  (if (0 <=? n)%Z && (n <=? Z.of_nat (length X))%Z
      && forallb (λ r, (n <=? Z.of_nat (length r))%Z) X
   then Ok {| mean_ := map (column_mean X) (seq 0 (width X));
              components_ := map (unit_vector (width X)) (seq 0 (Z.to_nat n)) |}
   else Err "ValueError", s).

Definition sqdist (a b : list Q) : Q :=
  foldr Qplus 0%Q (zip_with (λ x y, (x - y) * (x - y))%Q a b).

(** The first position holding the least value. *)
Fixpoint argmin_from (i best : nat) (least : Q) (vs : list Q) : nat :=
  match vs with
  | [] => best
  | v :: vs' =>
      if Qle_bool least v then argmin_from (S i) best least vs'
      else argmin_from (S i) i v vs'
  end.

Definition argmin (vs : list Q) : nat :=
  match vs with
  | [] => 0
  | v :: vs' => argmin_from 1 0 v vs'
  end.

(** Exact nearest centre, first one on a tie. *)
Definition nearest (centers : matrix) (r : list Q) : nat :=
  argmin (map (sqdist r) centers).

Definition predict_nearest (centers X : matrix) : list nat :=
  map (nearest centers) X.

(** Reads an unsigned decimal integer, refuses every other text. *)
Fixpoint digits_value (acc : Z) (s : string) : option Z :=
  match s with
  | EmptyString => Some acc
  | String c s' =>
      if is_digit c
      then digits_value (10 * acc + Z.of_nat (nat_of_ascii c) - 48) s'
      else None
  end.

Definition read_float (s : string) : option Q :=
  match s with
  | EmptyString => None
  | _ => inject_Z <$> digits_value 0 s
  end.

(** [KMeans]: the first [k] rows serve as centres.  The other two
    classes deal the rows out in turn. *)
Definition fit_cluster (c : clusterer) (s : nat) (k : option Z) (X : matrix) :
    result Fitted * nat :=
  (match k with
   | None => Err "TypeError"
   | Some k =>
       if (1 <=? k)%Z && (k <=? Z.of_nat (length X))%Z then
         match c with
         | KMeans =>
             let centers := take (Z.to_nat k) X in
             Ok {| labels_ := map (nearest centers) X; cluster_centers_ := centers |}
         | AgglomerativeClustering | SpectralClustering =>
             Ok {| labels_ := map (λ i, i mod Z.to_nat k) (seq 0 (length X));
                   cluster_centers_ := [] |}
         end
       else Err "ValueError"
   end, S s).

Lemma ref_pca_fit_ok s n X c :
  X ≠ [] → c ≠ 0%nat → Forall (λ r, length r = c) X →
  (0 ≤ n)%Z → (n ≤ Z.of_nat (length X))%Z → (n ≤ Z.of_nat c)%Z →
  is_ok (fit_pca s n X).1 = true.
Proof.
  intros _ _ Hrect H1 H2 H3. unfold fit_pca. simpl.
  assert (Hall : forallb (λ r, (n <=? Z.of_nat (length r))%Z) X = true).
  { apply forallb_forall. intros r Hr.
    rewrite Forall_forall in Hrect.
    apply list_elem_of_In, Hrect in Hr. rewrite Hr. lia. }
  rewrite Hall.
  destruct (Z.leb_spec 0 n), (Z.leb_spec n (Z.of_nat (length X))); simpl; lia || done.
Qed.

Lemma ref_pca_fit_components s n X m :
  (fit_pca s n X).1 = Ok m → length (components_ m) = Z.to_nat n.
Proof.
  unfold fit_pca. simpl. case_match; [|done].
  intros [= <-]. simpl. by rewrite length_map, length_seq.
Qed.

Lemma ref_pca_fit_too_many s n X c :
  Forall (λ r, length r = c) X →
  (Z.of_nat (length X) < n ∨ Z.of_nat c < n)%Z →
  (fit_pca s n X).1 = Err "ValueError".
Proof.
  intros Hrect Hn. unfold fit_pca. simpl. case_match eqn:E; [|done].
  exfalso. apply andb_true_iff in E as [E E3]. apply andb_true_iff in E as [E1 E2].
  apply Z.leb_le in E1, E2. destruct Hn as [Hn|Hn]; [lia|].
  destruct X as [|r X]; [simpl in *; lia|].
  simpl in E3. apply andb_true_iff in E3 as [E3 _]. apply Z.leb_le in E3.
  apply Forall_cons in Hrect as [Hr _]. lia.
Qed.

Lemma ref_cluster_fit_labels c s k X f :
  (fit_cluster c s k X).1 = Ok f → length (labels_ f) = length X.
Proof.
  unfold fit_cluster. simpl. destruct k as [k|]; [|done].
  case_match; [|done].
  destruct c; intros [= <-]; simpl; by rewrite length_map, ?length_seq.
Qed.

Lemma ref_kmeans_fit_ok s k X :
  (1 ≤ k)%Z → (k ≤ Z.of_nat (length X))%Z →
  is_ok (fit_cluster KMeans s (Some k) X).1 = true.
Proof.
  intros H1 H2. unfold fit_cluster. simpl.
  destruct (Z.leb_spec 1 k), (Z.leb_spec k (Z.of_nat (length X))); simpl; lia || done.
Qed.

Lemma ref_kmeans_fit_centers s k X f :
  (fit_cluster KMeans s (Some k) X).1 = Ok f →
  (1 ≤ k)%Z ∧ length (cluster_centers_ f) = Z.to_nat k.
Proof.
  unfold fit_cluster. simpl. case_match eqn:E; [|done].
  apply andb_true_iff in E as [E1 E2]. apply Z.leb_le in E1, E2.
  intros [= <-]. simpl. split; [done|]. rewrite length_take. lia.
Qed.

Lemma ref_kmeans_fit_width s k X f c :
  (fit_cluster KMeans s (Some k) X).1 = Ok f →
  Forall (λ r, length r = c) X →
  Forall (λ r, length r = c) (cluster_centers_ f).
Proof.
  unfold fit_cluster. simpl. case_match; [|done].
  intros [= <-] HX. simpl. by apply Forall_take.
Qed.

Lemma ref_kmeans_fit_too_many s k X :
  (Z.of_nat (length X) < k)%Z →
  (fit_cluster KMeans s (Some k) X).1 = Err "ValueError".
Proof.
  intros Hk. unfold fit_cluster. simpl.
  destruct (Z.leb_spec k (Z.of_nat (length X))); [lia|].
  by rewrite andb_false_r.
Qed.

Lemma ref_text_to_float_digit s :
  all_chars plain_nondigit s = true → read_float s = None.
Proof.
  destruct s as [|c s]; [done|]. simpl. unfold plain_nondigit.
  destruct (is_digit c); [done|]. done.
Qed.

Lemma ref_pca_fit_negative s n X :
  (n < 0)%Z → (fit_pca s n X).1 = Err "ValueError".
Proof.
  intros Hn. unfold fit_pca. simpl.
  destruct (Z.leb_spec 0 n); [lia|done].
Qed.

Lemma argmin_from_lt (i best : nat) (least : Q) (vs : list Q) :
  best < i → argmin_from i best least vs < i + length vs.
Proof.
  revert i best least. induction vs as [|v vs IH]; intros i best least Hb; simpl.
  - lia.
  - destruct (Qle_bool least v).
    + specialize (IH (S i) best least). lia.
    + specialize (IH (S i) i v). lia.
Qed.

Lemma nearest_lt (centers : matrix) (r : list Q) :
  centers ≠ [] → nearest centers r < length centers.
Proof.
  destruct centers as [|c centers]; [done|]. intros _.
  unfold nearest, argmin. simpl.
  pose proof (argmin_from_lt 1 0 (sqdist r c) (map (sqdist r) centers)) as Hlt.
  rewrite length_map in Hlt. lia.
Qed.

Lemma ref_kmeans_predict_length (centers X : matrix) :
  length (predict_nearest centers X) = length X.
Proof. unfold predict_nearest. by rewrite length_map. Qed.

Lemma ref_kmeans_predict_range (centers X : matrix) :
  centers ≠ [] → Forall (λ j, j < length centers) (predict_nearest centers X).
Proof.
  intros Hne. unfold predict_nearest. apply Forall_forall.
  intros j (r & -> & _)%list_elem_of_fmap. by apply nearest_lt.
Qed.

Definition sklearn : Sklearn :=
  {| text_to_float := read_float;
     pca_fit := fit_pca;
     cluster_fit := fit_cluster;
     kmeans_predict := predict_nearest;
     text_to_float_digit := ref_text_to_float_digit;
     pca_fit_ok := ref_pca_fit_ok;
     pca_fit_components := ref_pca_fit_components;
     pca_fit_too_many := ref_pca_fit_too_many;
     pca_fit_negative := ref_pca_fit_negative;
     cluster_fit_labels := ref_cluster_fit_labels;
     kmeans_fit_ok := ref_kmeans_fit_ok;
     kmeans_fit_centers := ref_kmeans_fit_centers;
     kmeans_fit_width := ref_kmeans_fit_width;
     kmeans_fit_too_many := ref_kmeans_fit_too_many;
     kmeans_predict_length := ref_kmeans_predict_length;
     kmeans_predict_range := ref_kmeans_predict_range |}.

(** Score: squared distance of every row to the first row that carries
    its label. *)
Definition score (m : string) (df : DataFrame) (labels : list nat) : result Q :=
  X ← @to_array sklearn df;
  let rep (l : nat) : list Q :=
    from_option (λ i, default [] (X !! i)) []
      (fst <$> list_find (λ l', l' = l) labels) in
  Ok (foldr Qplus 0%Q (zip_with (λ r l, sqdist r (rep l)) X labels)).

(** Knee: the candidate whose point lies farthest from the chord through
    the first and the last point of the curve; none on a straight curve. *)
Definition chord_gap (k0 kn : Z) (s0 sn : Q) (k : Z) (s : Q) : Q :=
  Qabs ((sn - s0) * inject_Z (k - k0) - inject_Z (kn - k0) * (s - s0))%Q.

Fixpoint farthest (best : option Z) (gap : Q) (pts : list (Z * Q * Q)) : option Z :=
  match pts with
  | [] => best
  | (k, _, g) :: pts' =>
      if Qle_bool g gap then farthest best gap pts'
      else farthest (Some k) g pts'
  end.

Definition knee (m : string) (ks : list Z) (ss : list Q) : option Z :=
  match head (zip ks ss), last (zip ks ss) with
  | Some (k0, s0), Some (kn, sn) =>
      farthest None 0%Q
        (map (λ p : Z * Q, (p.1, p.2, chord_gap k0 kn s0 sn p.1 p.2)) (zip ks ss))
  | _, _ => None
  end.

Definition yellowbrick : Yellowbrick :=
  {| scoring_metric := score; knee_locator := knee |}.

(** Prefect with checkpointing on: results are written, and a stored
    result is not read back. *)
Definition fresh_run : Orchestration :=
  {| checkpointing := true; reuse_stored_result := false |}.

(** Nine customers in three groups, three features each. *)
Definition customers : DataFrame :=
  {| columns := ["Income"; "Age"; "Spent"];
     rows := map (map (λ z, Num (inject_Z z)))
       [ [0; 0; 0]; [30; 30; 0]; [0; 30; 30];
         [3; 0; 3]; [33; 30; 3]; [3; 30; 33];
         [0; 3; 0]; [30; 33; 0]; [0; 33; 30] ]%Z |}.

(** Twelve customers in three groups of four. *)
Definition twelve_customers : DataFrame :=
  {| columns := ["Income"; "Age"; "Spent"];
     rows := map (map (λ z, Num (inject_Z z)))
       [ [0; 0; 0]; [30; 30; 0]; [0; 30; 30];
         [3; 0; 3]; [33; 30; 3]; [3; 30; 33];
         [0; 3; 0]; [30; 33; 0]; [0; 33; 30];
         [2; 1; 2]; [31; 31; 1]; [0; 31; 30] ]%Z |}.

Definition config : Config :=
  {| pca_n_components := 3;
     pca_columns := ["col1"; "col2"; "col3"];
     segment_config := {| algorithm := "KMeans"; metric := "distortion" |};
     model_name := "customer_segmentation_kmeans";
     image_pca := "image/pca.png";
     image_kmeans := "image/elbow.png";
     image_clusters := "image/cluster.png" |}.

End Reference.


(** * Properties *)

(** Membership of a literal in a literal list. *)
Ltac in_list :=
  repeat first [apply list_elem_of_here | apply list_elem_of_further].
Ltac not_in_list :=
  let H := fresh "Hin" in
  intros H;
  repeat (apply elem_of_cons in H as [H|H]; [discriminate H|]);
  by apply elem_of_nil in H.

Lemma M_bind_eq {A B} (m : M A) (f : A → M B) w :
  (m ≫= f) w = match m w with
               | (Ok a, w1) => f a w1
               | (Err e, w1) => (Err e, w1)
               end.
Proof. reflexivity. Qed.

(** ** Frames *)

Lemma column_index_Some name cols :
  name ∈ cols → is_Some (column_index name cols).
Proof.
  intros Hin. unfold column_index.
  destruct (list_find_elem_of (λ c, c = name) cols name Hin eq_refl) as [[i x] ->].
  by eexists.
Qed.

Lemma column_index_None name cols :
  name ∉ cols → column_index name cols = None.
Proof.
  intros Hin. unfold column_index.
  destruct (list_find _ cols) as [[i x]|] eqn:E; [|done].
  apply list_find_Some in E as (Hl & -> & _).
  by apply list_elem_of_lookup_2 in Hl.
Qed.

Lemma getitem_is_ok df name :
  is_ok (getitem df name) = true ↔ name ∈ columns df.
Proof.
  unfold getitem. destruct (decide (name ∈ columns df)) as [Hin|Hin].
  - destruct (column_index_Some _ _ Hin) as [i ->]. done.
  - rewrite (column_index_None _ _ Hin). done.
Qed.

Lemma getitem_missing df name :
  name ∉ columns df → getitem df name = Err "KeyError".
Proof. intros Hin. unfold getitem. by rewrite (column_index_None _ _ Hin). Qed.

Lemma DataFrame_of_array_columns arr names df :
  DataFrame_of_array arr names = Ok df →
  columns df = names ∧ rows df = map (map Num) arr ∧
  Forall (λ r, length r = length names) arr.
Proof.
  unfold DataFrame_of_array. case_match eqn:E; [|done].
  intros [= <-]. simpl. split_and!; [done..|].
  apply Forall_forall. intros r Hr.
  rewrite forallb_forall in E. apply list_elem_of_In, E in Hr.
  by apply Nat.eqb_eq in Hr.
Qed.

Section Reduced.
Context `{!Sklearn}.

Lemma reduce_dimension_columns df n names w pca_df w' :
  reduce_dimension df n names w = (Ok pca_df, w') → columns pca_df = names.
Proof.
  unfold reduce_dimension, mbind, M_bind, lift.
  destruct (PCA_fit_transform n df w) as [[arr|e] w1]; [|done].
  intros [= Hdf _]. by apply DataFrame_of_array_columns in Hdf as [? _].
Qed.
End Reduced.

(** ** C10: the projection step and the configured column names *)

(** C10.  [get_3d_projection] succeeds exactly on the frames that have
    columns named [col1], [col2] and [col3], and otherwise fails with
    [KeyError].  The frame it receives from [reduce_dimension] carries the
    configured names, so a name list that omits one of the three makes the
    projection step fail whatever its length. *)
Theorem get_3d_projection_needs_col123 (pca_df : DataFrame) :
  (is_ok (get_3d_projection pca_df) = true ↔
     "col1" ∈ columns pca_df ∧ "col2" ∈ columns pca_df ∧ "col3" ∈ columns pca_df)
  ∧ (is_ok (get_3d_projection pca_df) = false →
     get_3d_projection pca_df = Err "KeyError")
  ∧ (∀ (sk : Sklearn) df n names w w',
       reduce_dimension df n names w = (Ok pca_df, w') →
       ¬ ("col1" ∈ names ∧ "col2" ∈ names ∧ "col3" ∈ names) →
       get_3d_projection pca_df = Err "KeyError").
Proof.
  assert (Hcases :
    ("col1" ∈ columns pca_df ∧ "col2" ∈ columns pca_df ∧ "col3" ∈ columns pca_df
     ∧ is_ok (get_3d_projection pca_df) = true)
    ∨ (¬ ("col1" ∈ columns pca_df ∧ "col2" ∈ columns pca_df ∧ "col3" ∈ columns pca_df)
       ∧ get_3d_projection pca_df = Err "KeyError")).
  { unfold get_3d_projection, mbind, result_bind.
    destruct (decide ("col1" ∈ columns pca_df)) as [Hc1|Hc1].
    2: { right. rewrite (getitem_missing _ _ Hc1). tauto. }
    destruct (decide ("col2" ∈ columns pca_df)) as [Hc2|Hc2].
    2: { right. apply getitem_is_ok in Hc1.
         destruct (getitem pca_df "col1"); [|done].
         rewrite (getitem_missing _ _ Hc2). tauto. }
    destruct (decide ("col3" ∈ columns pca_df)) as [Hc3|Hc3].
    2: { right. apply getitem_is_ok in Hc1, Hc2.
         destruct (getitem pca_df "col1"), (getitem pca_df "col2"); try done.
         rewrite (getitem_missing _ _ Hc3). tauto. }
    left. split_and!; try done.
    apply getitem_is_ok in Hc1, Hc2, Hc3.
    by destruct (getitem pca_df "col1"), (getitem pca_df "col2"),
      (getitem pca_df "col3"). }
  split_and!.
  - destruct Hcases as [(?&?&?&->)|[Hn ->]]; [tauto|].
    split; [done|tauto].
  - destruct Hcases as [(?&?&?&->)|[Hn ->]]; done.
  - intros sk df n names w w' Hred Hn.
    apply reduce_dimension_columns in Hred. subst names.
    destruct Hcases as [(?&?&?&?)|[_ ->]]; tauto.
Qed.

(** ** C6: the shape of the reduced dataset *)

Section Numeric.
Context `{!Sklearn}.

(** Every cell converts to a float. *)
Definition numeric_frame (df : DataFrame) : Prop :=
  Forall (Forall (λ c, is_Some (to_float c))) (rows df).

Definition floats (r : list cell) : list Q := default [] (mapM to_float r).

Lemma mapM_floats (rs : list (list cell)) X :
  mapM (mapM to_float) rs = Some X → X = map floats rs.
Proof.
  intros HX. apply mapM_Some_1 in HX.
  induction HX as [|r x rs X Hr _ IH]; [done|].
  simpl. unfold floats at 1. rewrite Hr. simpl. by f_equal.
Qed.

Lemma to_array_Ok df X :
  to_array df = Ok X →
  X = map floats (rows df) ∧ length X = len df ∧ X ≠ [] ∧ columns df ≠ [].
Proof.
  unfold to_array. destruct (mapM _ (rows df)) as [X'|] eqn:HX; [|done].
  case_match eqn:E; [done|]. intros [= ->].
  apply orb_false_iff in E as [E1 E2].
  apply bool_decide_eq_false in E1, E2.
  pose proof (length_mapM _ _ _ HX) as Hlen.
  apply mapM_floats in HX. split_and!; try done.
  intros ->. destruct (rows df); done.
Qed.

Lemma mapM_floats_rect (rs : list (list cell)) X c :
  Forall (λ r, length r = c) rs →
  mapM (mapM to_float) rs = Some X →
  Forall (λ r, length r = c) X.
Proof.
  intros Hwf HX. apply mapM_Some_1 in HX.
  induction HX as [|r x rs X Hr _ IH]; [done|].
  apply Forall_cons in Hwf as [Hr' Hwf]. constructor; [|by apply IH].
  apply length_mapM in Hr. congruence.
Qed.

Lemma to_array_rect df X :
  wf_frame df → to_array df = Ok X →
  Forall (λ r, length r = length (columns df)) X.
Proof.
  unfold to_array. destruct (mapM _ (rows df)) as [X'|] eqn:HX; [|done].
  case_match; [done|]. intros Hwf [= ->].
  by eapply mapM_floats_rect.
Qed.

Lemma to_array_numeric df :
  numeric_frame df → rows df ≠ [] → columns df ≠ [] →
  ∃ X, to_array df = Ok X.
Proof.
  intros Hnum Hr Hc. unfold to_array.
  destruct (mapM (mapM to_float) (rows df)) as [X|] eqn:HX.
  - rewrite !bool_decide_eq_false_2 by done. by eexists.
  - exfalso. apply mapM_None_1, Exists_exists in HX as (r & Hin & HN).
    unfold numeric_frame in Hnum. rewrite Forall_forall in Hnum.
    specialize (Hnum r Hin). apply mapM_is_Some_2 in Hnum.
    rewrite HN in Hnum. by destruct Hnum.
Qed.

Lemma to_array_categorical df r s :
  r ∈ rows df → Txt s ∈ r → text_to_float s = None →
  to_array df = Err "ValueError".
Proof.
  intros Hr Hs Hnone. unfold to_array.
  destruct (mapM (mapM to_float) (rows df)) as [X|] eqn:HX; [|done].
  exfalso. assert (is_Some (mapM (mapM to_float) (rows df))) as HS by eauto.
  apply mapM_is_Some_1 in HS. rewrite Forall_forall in HS.
  specialize (HS r Hr). simpl in HS. apply mapM_is_Some_1 in HS.
  rewrite Forall_forall in HS. specialize (HS _ Hs). simpl in HS.
  rewrite Hnone in HS. by destruct HS.
Qed.

(** What [PCA.transform] does to one row of the frame. *)
Definition project_row (m : PCAModel) (r : list cell) : list cell :=
  map Num (map (dot (zip_with Qminus (floats r) (mean_ m))) (components_ m)).
End Numeric.

Section ReduceShape.
Context `{!Sklearn}.

(** C6 (amended).  On a frame with at least one row and one column whose
    cells are all numeric, and for [0 <= n <= min(rows, columns)] with [n]
    column names, [reduce_dimension] returns a frame with exactly
    [len(df)] rows and the [n] given columns, whose row [i] is the
    projection of row [i] of [df]. *)
Theorem reduce_dimension_shape (df : DataFrame) (n : Z) (names : list string) (w : world) :
  wf_frame df → numeric_frame df → rows df ≠ [] → columns df ≠ [] →
  (0 ≤ n)%Z → (n ≤ Z.of_nat (len df))%Z → (n ≤ Z.of_nat (length (columns df)))%Z →
  length names = Z.to_nat n →
  ∃ pca_df w' m,
    reduce_dimension df n names w = (Ok pca_df, w') ∧
    len pca_df = len df ∧
    columns pca_df = names ∧
    length (columns pca_df) = Z.to_nat n ∧
    wf_frame pca_df ∧
    rows pca_df = map (project_row m) (rows df).
Proof.
  intros Hwf Hnum Hr Hc Hn0 Hn1 Hn2 Hnames.
  destruct (to_array_numeric df Hnum Hr Hc) as [X HX].
  destruct (to_array_Ok _ _ HX) as (HXeq & Hlen & HXne & _).
  pose proof (to_array_rect _ _ Hwf HX) as Hrect.
  assert (Hcols : length (columns df) ≠ 0%nat) by (by destruct (columns df)).
  pose proof (pca_fit_ok (rng w) n X _ HXne Hcols Hrect Hn0) as Hok.
  rewrite Hlen in Hok. specialize (Hok Hn1 Hn2).
  unfold reduce_dimension, mbind, M_bind, PCA_fit_transform, lift.
  rewrite HX.
  destruct (pca_fit (rng w) n X) as [[m|e] s] eqn:Hfit; [|done].
  pose proof (pca_fit_components (rng w) n X m) as Hcomp.
  rewrite Hfit in Hcomp. specialize (Hcomp eq_refl).
  unfold DataFrame_of_array.
  assert (Hwidth : Forall (λ r, length r = length names) (pca_transform m X)).
  { unfold pca_transform. apply Forall_forall. intros r Hin.
    apply list_elem_of_fmap in Hin as (x & -> & _).
    rewrite length_map. congruence. }
  assert (Hall : forallb (λ r, Nat.eqb (length r) (length names))
                   (pca_transform m X) = true).
  { apply forallb_forall. intros r Hin. apply Nat.eqb_eq.
    rewrite Forall_forall in Hwidth. by apply Hwidth, list_elem_of_In. }
  rewrite Hall. eexists _, _, m. split; [reflexivity|]. simpl.
  split_and!.
  - unfold len. simpl. unfold pca_transform. by rewrite !length_map.
  - done.
  - done.
  - unfold wf_frame. simpl. apply Forall_forall. intros r Hin.
    apply list_elem_of_fmap in Hin as (x & -> & Hx).
    rewrite length_map. rewrite Forall_forall in Hwidth. by apply Hwidth.
  - unfold pca_transform, project_row. rewrite HXeq.
    rewrite !map_map. done.
Qed.
End ReduceShape.

Section ReduceFails.
Context `{!Sklearn}.

Lemma reduce_dimension_too_many df n names w :
  wf_frame df → numeric_frame df → rows df ≠ [] → columns df ≠ [] →
  (Z.of_nat (len df) < n)%Z →
  (reduce_dimension df n names w).1 = Err "ValueError".
Proof.
  intros Hwf Hnum Hr Hc Hn.
  destruct (to_array_numeric df Hnum Hr Hc) as [X HX].
  destruct (to_array_Ok _ _ HX) as (_ & Hlen & _ & _).
  pose proof (to_array_rect _ _ Hwf HX) as Hrect.
  pose proof (pca_fit_too_many (rng w) n X _ Hrect) as Herr.
  rewrite Hlen in Herr. specialize (Herr (or_introl Hn)).
  unfold reduce_dimension, mbind, M_bind, PCA_fit_transform, lift.
  rewrite HX. destruct (pca_fit (rng w) n X) as [r s]. simpl in Herr.
  by subst r.
Qed.

Lemma reduce_dimension_categorical df n names w r s :
  r ∈ rows df → Txt s ∈ r → all_chars plain_nondigit s = true →
  reduce_dimension df n names w = (Err "ValueError", w).
Proof.
  intros Hr Hs Hnone%text_to_float_digit.
  unfold reduce_dimension, mbind, M_bind, PCA_fit_transform, lift.
  by rewrite (to_array_categorical df r s Hr Hs Hnone).
Qed.
End ReduceFails.

Definition two_customers : DataFrame :=
  {| columns := ["Income"; "Age"; "Spent"];
     rows := [ [Num 58138; Num 57; Num 1617]; [Num 46344; Num 60; Num 27] ] |}.

Definition with_education : DataFrame :=
  {| columns := ["Education"; "Income"; "Age"];
     rows := [ [Txt "Graduation"; Num 58138; Num 57];
               [Txt "PhD"; Num 46344; Num 60];
               [Txt "Master"; Num 71613; Num 49] ] |}.

Definition no_customers : DataFrame :=
  {| columns := ["Income"; "Age"]; rows := [] |}.

(** C6, as stated, fails: two rows and three numeric columns with [n = 3];
    two numeric columns beside a categorical one with [n = 2]; an empty
    frame with [n = 0].  Each time [n] is at most the number of numeric
    columns and the name list has length [n], and [reduce_dimension]
    raises [ValueError]. *)
Lemma reduce_dimension_value_errors :
  (@reduce_dimension Reference.sklearn two_customers 3 ["col1"; "col2"; "col3"]
     empty_world).1 = Err "ValueError"
  ∧ (@reduce_dimension Reference.sklearn with_education 2 ["col1"; "col2"]
       empty_world).1 = Err "ValueError"
  ∧ (@reduce_dimension Reference.sklearn no_customers 0 [] empty_world).1
    = Err "ValueError".
Proof.
  split_and!.
  - apply reduce_dimension_too_many; [| |done|done|by vm_compute].
    + repeat constructor.
    + repeat (constructor; simpl; eauto).
  - by rewrite (@reduce_dimension_categorical Reference.sklearn with_education 2
                  ["col1"; "col2"] empty_world
                  [Txt "Graduation"; Num 58138; Num 57] "Graduation")
      by (reflexivity || (simpl; in_list)).
  - reflexivity.
Qed.

Lemma reduce_dimension_shape_witness :
  ∃ pca_df w' m,
    @reduce_dimension Reference.sklearn Reference.customers 3
      ["col1"; "col2"; "col3"] empty_world = (Ok pca_df, w') ∧
    len pca_df = len Reference.customers ∧
    columns pca_df = ["col1"; "col2"; "col3"] ∧
    length (columns pca_df) = Z.to_nat 3 ∧
    wf_frame pca_df ∧
    rows pca_df = map (@project_row Reference.sklearn m) (rows Reference.customers).
Proof.
  apply (@reduce_dimension_shape Reference.sklearn Reference.customers 3
           ["col1"; "col2"; "col3"] empty_world).
  - repeat constructor.
  - repeat (constructor; simpl; eauto).
  - discriminate.
  - discriminate.
  - lia.
  - by vm_compute.
  - by vm_compute.
  - reflexivity.
Defined.

Lemma get_3d_projection_needs_col123_witness :
  is_ok (get_3d_projection
           {| columns := ["col1"; "col2"; "col3"];
              rows := [[Num 1; Num 2; Num 3]] |}) = true
  ∧ get_3d_projection
      {| columns := ["pc1"; "pc2"; "pc3"];
         rows := [[Num 1; Num 2; Num 3]] |} = Err "KeyError".
Proof.
  split.
  - apply (proj1 (get_3d_projection_needs_col123 _)). simpl.
    split_and!; in_list.
  - apply (proj1 (proj2 (get_3d_projection_needs_col123 _))). reflexivity.
Defined.

(** ** C1: how the algorithm string is resolved *)

Definition clusterer_names : list (string * clusterer) :=
  [ ("AgglomerativeClustering", AgglomerativeClustering);
    ("KMeans", KMeans);
    ("SpectralClustering", SpectralClustering) ].

Definition new_estimator (c : clusterer) (k : option Z) : Estimator :=
  {| est_class := c; n_clusters := k; fitted := None |}.

Lemma module_globals_clusterer alg c :
  module_globals !! alg = Some (ClustererClass c) ↔ (alg, c) ∈ clusterer_names.
Proof.
  unfold module_globals. rewrite <- elem_of_list_to_map.
  2: { apply (bool_decide_unpack _). by vm_compute. }
  unfold clusterer_names, module_data_names, module_opaque_names.
  split; intros Hin.
  - simpl in Hin.
    repeat (apply elem_of_cons in Hin as [Hin|Hin]; [simplify_eq; in_list|]).
    by apply elem_of_nil in Hin.
  - repeat (apply elem_of_cons in Hin as [Hin|Hin];
            [simplify_eq; simpl; in_list|]).
    by apply elem_of_nil in Hin.
Qed.

Lemma module_globals_PCA : module_globals !! "PCA" = Some PCAClass.
Proof. by vm_compute. Qed.

(** Every name the module binds. *)
Definition module_names : list string :=
  [ "AgglomerativeClustering"; "KMeans"; "SpectralClustering"; "PCA" ]
  ++ module_data_names ++ module_opaque_names.

Lemma module_globals_None alg :
  module_globals !! alg = None ↔ alg ∉ module_names.
Proof.
  unfold module_globals. rewrite <- not_elem_of_list_to_map.
  by rewrite !fmap_app, <- !list_fmap_compose, !list_fmap_id.
Qed.

Lemma module_globals_data alg :
  alg ∈ module_data_names → module_globals !! alg = Some (NotCallable alg).
Proof.
  unfold module_data_names. intros Hin.
  repeat (apply elem_of_cons in Hin as [->|Hin]; [by vm_compute|]).
  by apply elem_of_nil in Hin.
Qed.

Section Lookup.
Context `{!Interp, !Sklearn, !Yellowbrick}.

Lemma py_eval_name locals alg w :
  is_name alg = true → alg ∉ locals →
  py_eval locals alg w =
    match module_globals !! alg with
    | Some o => (Ok o, w)
    | None => if bool_decide (alg ∈ builtins) then (Ok (Opaque alg), w)
              else (Err "NameError", w)
    end.
Proof.
  intros Hname Hloc. unfold py_eval. rewrite Hname.
  rewrite bool_decide_eq_false_2 by done.
  destruct (module_globals !! alg); [done|]. by case_bool_decide.
Qed.

(** C1 (amended).  The algorithm string is evaluated in the scope of the
    task; there is no closed table and no [UnsupportedAlgorithm].  For a
    string that is a name not shadowed by a local variable: the names
    bound to a clusterer class are [AgglomerativeClustering], [KMeans] and
    [SpectralClustering], and both operations go on with that class; the
    name [PCA] resolves too, to a class that is no clusterer, and the fit
    fails with [TypeError], the selection with [YellowbrickTypeError]; a
    name every module has ([__file__], [__name__], ...) or the name of a
    string constant resolves to an object that cannot be called, and both
    fail with [TypeError]; a name bound neither in the module nor among
    the builtins makes both fail with [NameError]. *)
Theorem algorithm_resolved_by_name_lookup
    (alg score image_path : string) (pca_df : DataFrame) (k : option Z) (w : world) :
  is_name alg = true →
  alg ∉ ["pca_df"; "cluster_config"; "image_path"; "fig"; "ax"] →
  alg ∉ ["pca_df"; "algorithm"; "k"] →
  let cfg := {| algorithm := alg; metric := score |} in
  (∀ c, (alg, c) ∈ clusterer_names →
     get_clusters_model pca_df alg k w
       = (e ← est_fit (new_estimator c k) pca_df; mret (ClustererObj e)) w
     ∧ get_best_k_cluster pca_df cfg image_path w
       = (elbow ← lift (KElbowVisualizer
                          (new_estimator c (Some (default_n_clusters c))) score);
          elbow ← kelbow_fit elbow pca_df;
          savefig image_path;;
          wandb_log [("elbow", Image image_path);
                     ("k_best", BestK (elbow_value_ elbow));
                     ("score_best", BestScore (elbow_score_ elbow))];;
          mret (elbow_value_ elbow)) w)
  ∧ (alg = "PCA" →
     get_clusters_model pca_df alg k w = (Err "TypeError", w)
     ∧ get_best_k_cluster pca_df cfg image_path w = (Err "YellowbrickTypeError", w))
  ∧ (alg ∈ module_data_names →
     get_clusters_model pca_df alg k w = (Err "TypeError", w)
     ∧ get_best_k_cluster pca_df cfg image_path w = (Err "TypeError", w))
  ∧ (alg ∉ module_names → alg ∉ builtins →
     get_clusters_model pca_df alg k w = (Err "NameError", w)
     ∧ get_best_k_cluster pca_df cfg image_path w = (Err "NameError", w)).
Proof.
  intros Hname Hl1 Hl2 cfg. subst cfg.
  unfold get_clusters_model, get_best_k_cluster, mbind, M_bind.
  cbn [algorithm metric].
  rewrite !py_eval_name by done. split_and!.
  - intros c Hc. apply module_globals_clusterer in Hc. by rewrite Hc.
  - intros ->. by rewrite module_globals_PCA.
  - intros Hd. by rewrite (module_globals_data _ Hd).
  - intros Hg%module_globals_None Hb. rewrite Hg.
    by rewrite bool_decide_eq_false_2 by done.
Qed.
End Lookup.

(** C1, as stated, fails.  [PCA] and [DBSCAN] are outside the three
    supported names; [eval] finds [PCA] among the module's imports, and
    neither name ends in [UnsupportedAlgorithm]. *)
Lemma unsupported_names_raise_other_errors :
  @py_eval Reference.interp ["pca_df"; "algorithm"; "k"] "PCA" empty_world
    = (Ok PCAClass, empty_world)
  ∧ @get_clusters_model Reference.interp Reference.sklearn
      Reference.customers "PCA" (Some 3%Z) empty_world
    = (Err "TypeError", empty_world)
  ∧ @get_best_k_cluster Reference.interp Reference.sklearn Reference.yellowbrick
      Reference.customers {| algorithm := "PCA"; metric := "distortion" |}
      "image/elbow.png" empty_world
    = (Err "YellowbrickTypeError", empty_world)
  ∧ @get_clusters_model Reference.interp Reference.sklearn
      Reference.customers "DBSCAN" (Some 3%Z) empty_world
    = (Err "NameError", empty_world)
  ∧ @get_best_k_cluster Reference.interp Reference.sklearn Reference.yellowbrick
      Reference.customers {| algorithm := "DBSCAN"; metric := "distortion" |}
      "image/elbow.png" empty_world
    = (Err "NameError", empty_world).
Proof. split_and!; by vm_compute. Qed.

Lemma algorithm_resolved_by_name_lookup_witness :
  (@get_clusters_model Reference.interp Reference.sklearn
     Reference.customers "DBSCAN" (Some 3%Z) empty_world
   = (Err "NameError", empty_world)
   ∧ @get_best_k_cluster Reference.interp Reference.sklearn Reference.yellowbrick
       Reference.customers {| algorithm := "DBSCAN"; metric := "distortion" |}
       "image/elbow.png" empty_world
     = (Err "NameError", empty_world))
  ∧ (@get_clusters_model Reference.interp Reference.sklearn
       Reference.customers "__file__" (Some 3%Z) empty_world
     = (Err "TypeError", empty_world)
     ∧ @get_best_k_cluster Reference.interp Reference.sklearn Reference.yellowbrick
         Reference.customers {| algorithm := "__file__"; metric := "distortion" |}
         "image/elbow.png" empty_world
       = (Err "TypeError", empty_world)).
Proof.
  split.
  - apply (@algorithm_resolved_by_name_lookup Reference.interp Reference.sklearn
             Reference.yellowbrick "DBSCAN" "distortion" "image/elbow.png"
             Reference.customers (Some 3%Z) empty_world).
    + reflexivity.
    + not_in_list.
    + not_in_list.
    + not_in_list.
    + by vm_compute.
  - apply (@algorithm_resolved_by_name_lookup Reference.interp Reference.sklearn
             Reference.yellowbrick "__file__" "distortion" "image/elbow.png"
             Reference.customers (Some 3%Z) empty_world).
    + reflexivity.
    + not_in_list.
    + not_in_list.
    + unfold module_data_names. in_list.
Defined.

(** ** C4: what [predict] does for each class *)

Section Predict.
Context `{!Interp, !Sklearn}.

Lemma est_predict_KMeans (e : Estimator) (f : Fitted) (df : DataFrame) X :
  est_class e = KMeans → fitted e = Some f →
  to_array df = Ok X →
  Forall (λ r, length r = length (columns df)) X →
  Forall (λ c, length c = length (columns df)) (cluster_centers_ f) →
  est_predict e df
    = Ok (map (λ j, Int (Z.of_nat j)) (kmeans_predict (cluster_centers_ f) X)).
Proof.
  intros Hc Hf HX Hrect Hctr. unfold est_predict. rewrite Hc, Hf, HX.
  unfold mbind, result_bind.
  assert (Hall : forallb (λ r, forallb (λ c, Nat.eqb (length c) (length r))
                                (cluster_centers_ f)) X = true).
  { apply forallb_forall. intros r Hr%list_elem_of_In.
    apply forallb_forall. intros c Hin%list_elem_of_In. apply Nat.eqb_eq.
    rewrite Forall_forall in Hrect, Hctr.
    rewrite (Hrect r Hr), (Hctr c Hin). done. }
  by rewrite Hall.
Qed.

(** C4 (amended).  [predict] calls the model's own [predict] method and has
    no fallback.  For a fitted [KMeans] model it returns the labels the
    library's [predict] computes from the learned centres: one label per
    row, each the position of one of the centres.  An
    [AgglomerativeClustering] or [SpectralClustering] model has no such
    method and [predict] fails with [AttributeError]. *)
Theorem predict_is_native_only (e : Estimator) (pca_df : DataFrame) (w : world) :
  (est_class e ≠ KMeans →
     predict (ClustererObj e) pca_df w = (Err "AttributeError", w))
  ∧ (est_class e = KMeans →
     ∀ f X, fitted e = Some f → cluster_centers_ f ≠ [] →
       to_array pca_df = Ok X → wf_frame pca_df →
       Forall (λ c, length c = length (columns pca_df)) (cluster_centers_ f) →
       ∃ labels,
         predict (ClustererObj e) pca_df w = (Ok labels, w)
         ∧ labels = map (λ j, Int (Z.of_nat j))
                      (kmeans_predict (cluster_centers_ f) X)
         ∧ length labels = len pca_df
         ∧ ∀ i lbl, labels !! i = Some lbl →
             ∃ j ctr, lbl = Int (Z.of_nat j)
                      ∧ cluster_centers_ f !! j = Some ctr).
Proof.
  split.
  - intros Hc. unfold predict, lift, est_predict. by destruct (est_class e).
  - intros Hc f X Hf Hne HX Hwf Hctr.
    pose proof (to_array_rect _ _ Hwf HX) as Hrect.
    destruct (to_array_Ok _ _ HX) as (_ & Hlen & _ & _).
    unfold predict, lift.
    rewrite (est_predict_KMeans e f pca_df X Hc Hf HX Hrect Hctr).
    eexists. split; [reflexivity|]. split; [reflexivity|].
    split; [by rewrite length_map, kmeans_predict_length|].
    intros i lbl (j & -> & Hj)%list_lookup_fmap_Some.
    pose proof (kmeans_predict_range (cluster_centers_ f) X Hne) as Hrange.
    rewrite Forall_forall in Hrange.
    apply list_elem_of_lookup_2, Hrange, lookup_lt_is_Some in Hj as [ctr Hctr'].
    by exists j, ctr.
Qed.
End Predict.

Lemma agglomerative_has_no_predict :
  ∃ e w1,
    @get_clusters_model Reference.interp Reference.sklearn Reference.customers
      "AgglomerativeClustering" (Some 3%Z) empty_world = (Ok (ClustererObj e), w1)
    ∧ est_class e = AgglomerativeClustering
    ∧ is_Some (fitted e)
    ∧ @predict Reference.interp Reference.sklearn (ClustererObj e)
        Reference.customers w1 = (Err "AttributeError", w1).
Proof.
  eexists _, _. split; [by vm_compute|]. split; [done|].
  split; [by eexists|]. by vm_compute.
Qed.

Definition three_centers : Estimator :=
  {| est_class := KMeans; n_clusters := Some 3%Z;
     fitted := Some {| labels_ := [0; 1; 2; 0; 1; 2; 0; 1; 2]%nat;
                       cluster_centers_ := [ [0; 0; 0]; [30; 30; 0]; [0; 30; 30] ]%Q |} |}.

Lemma predict_is_native_only_witness :
  @predict Reference.interp Reference.sklearn
    (ClustererObj (new_estimator SpectralClustering (Some 3%Z)))
    Reference.customers empty_world
  = (Err "AttributeError", empty_world)
  ∧ ∃ labels,
      @predict Reference.interp Reference.sklearn (ClustererObj three_centers)
        Reference.customers empty_world = (Ok labels, empty_world)
      ∧ length labels = len Reference.customers
      ∧ ∀ i lbl, labels !! i = Some lbl →
          ∃ j ctr, lbl = Int (Z.of_nat j)
                   ∧ [ [0; 0; 0]; [30; 30; 0]; [0; 30; 30] ]%Q !! j = Some ctr.
Proof.
  split.
  - apply (proj1 (@predict_is_native_only Reference.interp Reference.sklearn
                    (new_estimator SpectralClustering (Some 3%Z))
                    Reference.customers empty_world)).
    discriminate.
  - edestruct (proj2 (@predict_is_native_only Reference.interp Reference.sklearn
                        three_centers Reference.customers empty_world) eq_refl
                 {| labels_ := [0; 1; 2; 0; 1; 2; 0; 1; 2]%nat;
                    cluster_centers_ := [ [0; 0; 0]; [30; 30; 0]; [0; 30; 30] ]%Q |})
      as (labels & Hrun & _ & Hlen & Hpos).
    + reflexivity.
    + discriminate.
    + reflexivity.
    + repeat constructor.
    + repeat constructor.
    + exists labels. split; [exact Hrun|]. split; [exact Hlen|exact Hpos].
Defined.

(** ** C5: what [get_clusters_model] does with [k] *)

Lemma clusterer_names_plain alg c :
  (alg, c) ∈ clusterer_names →
  is_name alg = true
  ∧ (alg ∉ ["pca_df"; "cluster_config"; "image_path"; "fig"; "ax"])
  ∧ (alg ∉ ["pca_df"; "algorithm"; "k"]).
Proof.
  unfold clusterer_names. intros Hc.
  repeat (apply elem_of_cons in Hc as [Hc|Hc];
          [simplify_eq; split; [reflexivity|split; not_in_list]|]).
  by apply elem_of_nil in Hc.
Qed.

Section Fit.
Context `{!Interp, !Sklearn}.

Lemma get_clusters_model_clusterer alg c pca_df k w :
  (alg, c) ∈ clusterer_names →
  get_clusters_model pca_df alg k w
    = (e ← est_fit (new_estimator c k) pca_df; mret (ClustererObj e)) w.
Proof.
  intros Hc. destruct (clusterer_names_plain _ _ Hc) as (Hname & _ & Hloc).
  apply module_globals_clusterer in Hc.
  unfold get_clusters_model, mbind, M_bind.
  rewrite py_eval_name, Hc by done. done.
Qed.

Lemma est_fit_inv e df w e' w' :
  est_fit e df w = (Ok e', w') →
  ∃ X f, to_array df = Ok X
         ∧ (cluster_fit (est_class e) (rng w) (n_clusters e) X).1 = Ok f
         ∧ e' = {| est_class := est_class e; n_clusters := n_clusters e;
                   fitted := Some f |}
         ∧ frames w' = frames w ∧ files w' = files w ∧ trace w' = trace w.
Proof.
  unfold est_fit. destruct (to_array df) as [X|x]; [|done].
  destruct (cluster_fit _ _ _ X) as [[f|x] s] eqn:Hfit; [|done].
  intros [= <- <-]. exists X, f. by rewrite Hfit.
Qed.

Lemma est_fit_Ok e df w X f :
  to_array df = Ok X →
  (cluster_fit (est_class e) (rng w) (n_clusters e) X).1 = Ok f →
  ∃ w', est_fit e df w
        = (Ok {| est_class := est_class e; n_clusters := n_clusters e;
                 fitted := Some f |}, w').
Proof.
  intros HX Hf. unfold est_fit. rewrite HX.
  destruct (cluster_fit _ _ _ X) as [r s]. simpl in Hf. subst r. by eexists.
Qed.

Lemma est_fit_Err e df w X x :
  to_array df = Ok X →
  (cluster_fit (est_class e) (rng w) (n_clusters e) X).1 = Err x →
  (est_fit e df w).1 = Err x.
Proof.
  intros HX Hf. unfold est_fit. rewrite HX.
  destruct (cluster_fit _ _ _ X) as [r s]. simpl in Hf. by subst r.
Qed.

(** C5 (amended).  [get_clusters_model] checks nothing itself and knows no
    [InvalidParameter]: [k] goes to the constructor of the named class as
    [n_clusters] and the library's [fit] decides.  A model that comes back
    is of the named class with [n_clusters = k]; with [KMeans], [fit]
    raises [ValueError] when [k] exceeds the row count and, for
    [1 <= k <= rows] on numeric data, returns a model with [k] centres. *)
Theorem get_clusters_model_passes_k
    (alg : string) (c : clusterer) (pca_df : DataFrame) (k : Z) (w : world) :
  (alg, c) ∈ clusterer_names →
  (∀ m w', get_clusters_model pca_df alg (Some k) w = (Ok m, w') →
     ∃ f, m = ClustererObj {| est_class := c; n_clusters := Some k;
                              fitted := Some f |})
  ∧ (c = KMeans → numeric_frame pca_df → rows pca_df ≠ [] → columns pca_df ≠ [] →
     (Z.of_nat (len pca_df) < k)%Z →
     (get_clusters_model pca_df alg (Some k) w).1 = Err "ValueError")
  ∧ (c = KMeans → numeric_frame pca_df → columns pca_df ≠ [] →
     (1 ≤ k)%Z → (k ≤ Z.of_nat (len pca_df))%Z →
     ∃ f w', get_clusters_model pca_df alg (Some k) w
             = (Ok (ClustererObj {| est_class := KMeans; n_clusters := Some k;
                                    fitted := Some f |}), w')
             ∧ length (cluster_centers_ f) = Z.to_nat k).
Proof.
  intros Hc. rewrite (get_clusters_model_clusterer _ _ _ _ _ Hc).
  unfold mbind, M_bind. split_and!.
  - intros m w' Hm.
    destruct (est_fit (new_estimator c (Some k)) pca_df w) as [[e|x] w1] eqn:Hfit;
      [|done].
    apply est_fit_inv in Hfit as (X & f & _ & _ & -> & _).
    injection Hm as <- _. by exists f.
  - intros -> Hnum Hr Hcols Hk.
    destruct (to_array_numeric _ Hnum Hr Hcols) as [X HX].
    destruct (to_array_Ok _ _ HX) as (_ & Hlen & _ & _).
    pose proof (kmeans_fit_too_many (rng w) k X) as Herr.
    rewrite Hlen in Herr. specialize (Herr Hk).
    pose proof (est_fit_Err (new_estimator KMeans (Some k)) pca_df w X _ HX Herr)
      as Hfit.
    destruct (est_fit _ pca_df w) as [r w1]. simpl in Hfit. by subst r.
  - intros -> Hnum Hcols Hk1 Hk2.
    assert (Hr : rows pca_df ≠ []).
    { unfold len in Hk2. destruct (rows pca_df); [simpl in Hk2; lia|done]. }
    destruct (to_array_numeric _ Hnum Hr Hcols) as [X HX].
    destruct (to_array_Ok _ _ HX) as (_ & Hlen & _ & _).
    pose proof (kmeans_fit_ok (rng w) k X Hk1) as Hok.
    rewrite Hlen in Hok. specialize (Hok Hk2).
    destruct ((cluster_fit KMeans (rng w) (Some k) X).1) as [f|x] eqn:Hf; [|done].
    destruct (est_fit_Ok (new_estimator KMeans (Some k)) pca_df w X f HX Hf)
      as [w' ->].
    exists f, w'. split; [done|].
    by apply (kmeans_fit_centers (rng w) k X f).
Qed.
End Fit.

(** C5, as stated, fails: with two rows and [k = 5] the fit raises the
    library's [ValueError], not [InvalidParameter]. *)
Lemma get_clusters_model_too_many_clusters :
  (@get_clusters_model Reference.interp Reference.sklearn two_customers
     "KMeans" (Some 5%Z) empty_world).1 = Err "ValueError".
Proof. by vm_compute. Qed.

Lemma get_clusters_model_passes_k_witness :
  (∀ m w',
     @get_clusters_model Reference.interp Reference.sklearn Reference.customers
       "KMeans" (Some 3%Z) empty_world = (Ok m, w') →
     ∃ f, m = ClustererObj {| est_class := KMeans; n_clusters := Some 3%Z;
                              fitted := Some f |})
  ∧ (∃ f w',
       @get_clusters_model Reference.interp Reference.sklearn Reference.customers
         "KMeans" (Some 3%Z) empty_world
       = (Ok (ClustererObj {| est_class := KMeans; n_clusters := Some 3%Z;
                              fitted := Some f |}), w')
       ∧ length (cluster_centers_ f) = Z.to_nat 3).
Proof.
  assert (Hin : ("KMeans", KMeans) ∈ clusterer_names) by (unfold clusterer_names; in_list).
  pose proof (@get_clusters_model_passes_k Reference.interp Reference.sklearn
                "KMeans" KMeans Reference.customers 3 empty_world Hin)
    as (Hshape & _ & Hfit).
  split; [exact Hshape|].
  apply Hfit; [done| |discriminate|lia|by vm_compute].
  repeat (constructor; simpl; eauto).
Defined.

(** ** C7: fitting, then predicting on the same data *)

Section RoundTrip.
Context `{!Interp, !Sklearn}.

Lemma kmeans_in_names : ("KMeans", KMeans) ∈ clusterer_names.
Proof. unfold clusterer_names. in_list. Qed.

(** C7 (amended).  With [KMeans], numeric data and [1 <= k <= rows],
    predicting on the data the model was fitted on gives one label per row
    and every label lies in [[0, k)]; that all [k] labels occur is not
    promised.  A model of one of the other two classes, once fitted, makes
    [predict] fail with [AttributeError]. *)
Theorem fit_then_predict_labels (pca_df : DataFrame) (k : Z) (w : world) :
  (wf_frame pca_df → numeric_frame pca_df → columns pca_df ≠ [] →
   (1 ≤ k)%Z → (k ≤ Z.of_nat (len pca_df))%Z →
   ∃ e w1 labels,
     get_clusters_model pca_df "KMeans" (Some k) w = (Ok (ClustererObj e), w1)
     ∧ predict (ClustererObj e) pca_df w1 = (Ok labels, w1)
     ∧ length labels = len pca_df
     ∧ Forall (λ c, ∃ j, c = Int j ∧ (0 ≤ j)%Z ∧ (j < k)%Z) labels)
  ∧ (∀ alg c m w1,
       (alg, c) ∈ clusterer_names → c ≠ KMeans →
       get_clusters_model pca_df alg (Some k) w = (Ok m, w1) →
       predict m pca_df w1 = (Err "AttributeError", w1)).
Proof.
  split.
  - intros Hwf Hnum Hcols Hk1 Hk2.
    assert (Hr : rows pca_df ≠ []).
    { unfold len in Hk2. destruct (rows pca_df); [simpl in Hk2; lia|done]. }
    destruct (to_array_numeric _ Hnum Hr Hcols) as [X HX].
    destruct (to_array_Ok _ _ HX) as (_ & Hlen & _ & _).
    pose proof (to_array_rect _ _ Hwf HX) as Hrect.
    pose proof (kmeans_fit_ok (rng w) k X Hk1) as Hok.
    rewrite Hlen in Hok. specialize (Hok Hk2).
    destruct ((cluster_fit KMeans (rng w) (Some k) X).1) as [f|x] eqn:Hf; [|done].
    destruct (kmeans_fit_centers _ _ _ _ Hf) as [_ Hcount].
    pose proof (kmeans_fit_width _ _ _ _ _ Hf Hrect) as Hwidth.
    destruct (est_fit_Ok (new_estimator KMeans (Some k)) pca_df w X f HX Hf)
      as [w1 Hfit].
    rewrite (get_clusters_model_clusterer _ _ _ _ _ kmeans_in_names).
    unfold mbind, M_bind. rewrite Hfit. simpl.
    eexists _, w1, _. split; [reflexivity|].
    unfold lift.
    erewrite est_predict_KMeans; [|done|reflexivity|exact HX|exact Hrect|exact Hwidth].
    split; [reflexivity|].
    split; [by rewrite length_map, kmeans_predict_length|].
    apply Forall_forall. intros lbl (j & -> & Hj)%list_elem_of_fmap.
    assert (Hne : cluster_centers_ f ≠ []).
    { intros Hnil. rewrite Hnil in Hcount. simpl in Hcount. lia. }
    pose proof (kmeans_predict_range (cluster_centers_ f) X Hne) as Hrange.
    rewrite Forall_forall in Hrange. apply Hrange in Hj.
    eexists. split; [reflexivity|]. lia.
  - intros alg c m w1 Hc Hnk Hm.
    rewrite (get_clusters_model_clusterer _ _ _ _ _ Hc) in Hm.
    unfold mbind, M_bind in Hm.
    destruct (est_fit (new_estimator c (Some k)) pca_df w) as [[e|x] w2] eqn:Hfit;
      [|done].
    apply est_fit_inv in Hfit as (X & f & _ & _ & -> & _).
    injection Hm as <- <-.
    unfold predict, lift, est_predict. simpl. by destruct c.
Qed.
End RoundTrip.

(** C7, as stated, fails: a [SpectralClustering] model fitted with [k = 3]
    cannot predict on the data it was fitted on, so no labelling results. *)
Lemma spectral_fit_then_predict_fails :
  ∃ m w1,
    @get_clusters_model Reference.interp Reference.sklearn Reference.customers
      "SpectralClustering" (Some 3%Z) empty_world = (Ok m, w1)
    ∧ @predict Reference.interp Reference.sklearn m Reference.customers w1
      = (Err "AttributeError", w1).
Proof. eexists _, _. split; by vm_compute. Qed.

Lemma fit_then_predict_labels_witness :
  ∃ e w1 labels,
    @get_clusters_model Reference.interp Reference.sklearn Reference.customers
      "KMeans" (Some 3%Z) empty_world = (Ok (ClustererObj e), w1)
    ∧ @predict Reference.interp Reference.sklearn (ClustererObj e)
        Reference.customers w1
      = (Ok labels, w1)
    ∧ length labels = len Reference.customers
    ∧ Forall (λ c, ∃ j, c = Int j ∧ (0 ≤ j)%Z ∧ (j < 3)%Z) labels.
Proof.
  apply (proj1 (@fit_then_predict_labels Reference.interp Reference.sklearn
                  Reference.customers 3 empty_world)).
  - repeat constructor.
  - repeat (constructor; simpl; eauto).
  - discriminate.
  - lia.
  - by vm_compute.
Defined.

(** ** C3: a score curve without a knee *)

Definition candidate_ks : list Z := [2; 3; 4; 5; 6; 7; 8; 9; 10]%Z.

Section NoElbow.
Context `{!Interp, !Sklearn, !Yellowbrick}.

(** Saving the elbow figure and logging the selection. *)
Definition log_elbow (image_path : string) (k_best : option Z) (best : Q) : M unit :=
  savefig image_path;;
  wandb_log [("elbow", Image image_path); ("k_best", BestK k_best);
             ("score_best", BestScore best)].

Lemma get_best_k_cluster_clusterer alg c score image_path pca_df w :
  (alg, c) ∈ clusterer_names →
  get_best_k_cluster pca_df {| algorithm := alg; metric := score |} image_path w
    = (elbow ← lift (KElbowVisualizer
                       (new_estimator c (Some (default_n_clusters c))) score);
       elbow ← kelbow_fit elbow pca_df;
       log_elbow image_path (elbow_value_ elbow) (elbow_score_ elbow);;
       mret (elbow_value_ elbow)) w.
Proof.
  intros Hc. destruct (clusterer_names_plain _ _ Hc) as (Hname & Hloc & _).
  apply module_globals_clusterer in Hc.
  unfold get_best_k_cluster, mbind, M_bind. cbn [algorithm metric].
  rewrite py_eval_name, Hc by done. simpl.
  destruct (KElbowVisualizer _ score) as [v|x]; [|done]. simpl.
  destruct (kelbow_fit v pca_df w) as [[v'|x] w1]; [|done].
  unfold log_elbow, mbind, M_bind.
  by destruct (savefig image_path w1) as [[[]|x] w2].
Qed.

(** C3 (amended).  [get_best_k_cluster] returns [elbow_value_] as the
    visualizer left it.  Once the candidate clusterings ([k] from 2 to 10)
    are fitted and scored, the task saves the figure, logs the selection
    and returns what the knee detector says of the score curve: whenever
    it returns, the value is the detector's; when the detector finds no
    knee the task returns [None] as the selected [k]; and the only errors
    left are those of saving and logging. *)
Theorem get_best_k_cluster_returns_knee
    (alg : string) (c : clusterer) (score image_path : string)
    (pca_df : DataFrame) (w w' : world) (e : Estimator) (ss : list Q) :
  (alg, c) ∈ clusterer_names →
  score ∈ KELBOW_SCOREMAP →
  kelbow_scores (new_estimator c (Some (default_n_clusters c))) score pca_df
    candidate_ks w = (Ok (e, ss), w') →
  let cfg := {| algorithm := alg; metric := score |} in
  let knee := knee_locator score candidate_ks ss in
  let best := match knee with
              | Some k => score_at candidate_ks ss k
              | None => 0%Q
              end in
  (∀ w'', log_elbow image_path knee best w' = (Ok (), w'') →
     get_best_k_cluster pca_df cfg image_path w = (Ok knee, w''))
  ∧ (∀ k w'', get_best_k_cluster pca_df cfg image_path w = (Ok k, w'') →
       k = knee ∧ log_elbow image_path knee best w' = (Ok (), w''))
  ∧ (∀ x w'', get_best_k_cluster pca_df cfg image_path w = (Err x, w'') →
       log_elbow image_path knee best w' = (Err x, w''))
  ∧ (knee = None →
     ∀ w'', log_elbow image_path None 0%Q w' = (Ok (), w'') →
       get_best_k_cluster pca_df cfg image_path w = (Ok None, w'')).
Proof.
  intros Hc Hscore Hfit cfg knee best.
  assert (Hres :
    get_best_k_cluster pca_df cfg image_path w
    = (log_elbow image_path knee best;; mret knee) w').
  { subst cfg. rewrite (get_best_k_cluster_clusterer _ _ _ _ _ _ Hc).
    unfold mbind at 1 2, M_bind at 1 2, lift, KElbowVisualizer, kelbow_fit.
    rewrite bool_decide_eq_true_2 by done. cbn [estimator elbow_metric k_values_].
    unfold mbind at 1, M_bind at 1. fold candidate_ks. rewrite Hfit. done. }
  rewrite Hres, M_bind_eq. clear Hres.
  destruct (log_elbow image_path knee best w') as [[[]|x] w1] eqn:Hlog.
  - split_and!.
    + by intros w'' [= <-].
    + by intros k w'' [= <- <-].
    + by intros x w'' [=].
    + intros Hnone w'' Hlog'. subst best. rewrite Hnone in Hlog.
      cbv beta iota in Hlog. rewrite Hnone. cbv [mret M_ret]. congruence.
  - split_and!.
    + by intros w'' [=].
    + by intros k w'' [=].
    + by intros x' w'' [= <- <-].
    + intros Hnone w'' Hlog'. subst best. rewrite Hnone in Hlog.
      cbv beta iota in Hlog. congruence.
Qed.
End NoElbow.

(** Ten customers that do not differ: every candidate [k] scores alike. *)
Definition same_customers : DataFrame :=
  {| columns := ["col1"; "col2"; "col3"];
     rows := replicate 10 [Num 1; Num 2; Num 3] |}.

(** C3, as stated, fails: on a flat score curve the task returns [None]. *)
Lemma flat_curve_returns_None :
  (@get_best_k_cluster Reference.interp Reference.sklearn Reference.yellowbrick
     same_customers {| algorithm := "KMeans"; metric := "distortion" |}
     "image/elbow.png" empty_world).1 = Ok None.
Proof. by vm_compute. Qed.

Lemma get_best_k_cluster_returns_knee_witness :
  ∃ w',
    @get_best_k_cluster Reference.interp Reference.sklearn Reference.yellowbrick
      same_customers {| algorithm := "KMeans"; metric := "distortion" |}
      "image/elbow.png" empty_world = (Ok None, w').
Proof.
  eexists.
  refine (proj2 (proj2 (proj2
            (@get_best_k_cluster_returns_knee Reference.interp
               Reference.sklearn Reference.yellowbrick "KMeans" KMeans
               "distortion" "image/elbow.png" same_customers empty_world
               _ _ _ _ _ _))) _ _ _).
  - unfold clusterer_names. in_list.
  - unfold KELBOW_SCOREMAP. in_list.
  - vm_compute. reflexivity.
  - by vm_compute.
  - reflexivity.
Defined.

(** ** C2: where artifacts are stored *)

Lemma string_length_append (a b : string) :
  String.length (a +:+ b) = (String.length a + String.length b)%nat.
Proof. induction a as [|c a IH]; simpl; [done|]. by rewrite IH. Qed.

Lemma append_suffix_inj (a b t : string) : a +:+ t = b +:+ t → a = b.
Proof.
  revert b. induction a as [|c a IH]; intros [|d b] Heq.
  - done.
  - apply (f_equal String.length) in Heq.
    rewrite !string_length_append in Heq. simpl in Heq. exfalso. lia.
  - apply (f_equal String.length) in Heq.
    rewrite !string_length_append in Heq. simpl in Heq. exfalso. lia.
  - injection Heq as -> Heq. f_equal. by apply IH.
Qed.

Lemma is_name_not_rooted name :
  is_name name = true →
  path_join OUTPUT_DIR (name +:+ ".csv") = OUTPUT_DIR +:+ name +:+ ".csv".
Proof.
  destruct name as [|c name]; [done|]. intros Hname.
  unfold path_join.
  change (String c name +:+ ".csv") with (String c (name +:+ ".csv")).
  cbv beta iota.
  destruct (Ascii.eqb c "/") eqn:Hc.
  - apply Ascii.eqb_eq in Hc. subst c. done.
  - change (ends_with_slash OUTPUT_DIR) with true. done.
Qed.

Lemma task_name_found name (inputs : list (string * string)) :
  "task_name" ∉ inputs.*1 →
  list_find (λ kv, kv.1 = "task_name") (formatting_kwargs name inputs)
    = Some (length inputs, ("task_name", name)).
Proof.
  intros Hin. unfold formatting_kwargs. apply list_find_Some. split_and!.
  - rewrite lookup_app_r by done. by rewrite Nat.sub_diag.
  - done.
  - intros j [key v] Hj Hlt Hkey. simpl in Hkey. subst key.
    rewrite lookup_app_l in Hj by done.
    apply Hin. apply list_elem_of_fmap. exists ("task_name", v).
    split; [done|]. by eapply list_elem_of_lookup_2.
Qed.

Lemma py_format_OUTPUT_FILE kwargs i v :
  list_find (λ kv : string * string, kv.1 = "task_name") kwargs
    = Some (i, ("task_name", v)) →
  py_format OUTPUT_FILE kwargs = Ok (v +:+ ".csv").
Proof.
  intros Hfind.
  cbv [py_format OUTPUT_FILE format_from Ascii.eqb Bool.eqb lbrace rbrace
       String.append].
  rewrite Hfind. done.
Qed.

Lemma result_location_TASK_OUTPUT name inputs :
  is_name name = true → "task_name" ∉ inputs.*1 →
  result_location TASK_OUTPUT (formatting_kwargs name inputs)
    = Ok (OUTPUT_DIR +:+ name +:+ ".csv").
Proof.
  intros Hname Hin. unfold result_location. cbn [location result_dir TASK_OUTPUT].
  rewrite (py_format_OUTPUT_FILE _ _ _ (task_name_found name inputs Hin)).
  unfold mbind, result_bind.
  by rewrite (is_name_not_rooted name Hname).
Qed.

(** C2 (amended).  The key of a stored artifact is its location, and the
    location is made from the task's name alone:
    [data/final/<task name>.csv], whatever the task's inputs are.  Two runs
    that differ in an upstream parameter therefore use the same key for
    every artifact task; tasks with different names use different keys; and
    storing the artifact of one task leaves the artifacts at every other
    location as they were. *)
Theorem artifact_location_by_task_name
    (name : string) (inputs inputs' : list (string * string)) :
  is_name name = true →
  "task_name" ∉ inputs.*1 → "task_name" ∉ inputs'.*1 →
  result_location TASK_OUTPUT (formatting_kwargs name inputs)
    = Ok (OUTPUT_DIR +:+ name +:+ ".csv")
  ∧ result_location TASK_OUTPUT (formatting_kwargs name inputs')
    = result_location TASK_OUTPUT (formatting_kwargs name inputs)
  ∧ (∀ name', is_name name' = true →
       result_location TASK_OUTPUT (formatting_kwargs name' inputs')
         = result_location TASK_OUTPUT (formatting_kwargs name inputs) →
       name' = name)
  ∧ (∀ (o : Orchestration) (body : M DataFrame) (w : world) (p : string),
       keeps files body →
       p ≠ OUTPUT_DIR +:+ name +:+ ".csv" →
       files (artifact_task name TASK_OUTPUT inputs (Ok body) w).2 !! p
         = files w !! p).
Proof.
  intros Hname Hin Hin'.
  rewrite !result_location_TASK_OUTPUT by done. split_and!; try done.
  - intros name' Hname'. rewrite result_location_TASK_OUTPUT by done.
    intros [= Heq]. apply String.app_inj in Heq.
    by apply append_suffix_inj in Heq.
  - intros o body w p Hbody Hp. unfold artifact_task.
    rewrite result_location_TASK_OUTPUT by done.
    destruct (if reuse_stored_result then _ else _) as [df|].
    { done. }
    specialize (Hbody (log_run name w)).
    destruct (body (log_run name w)) as [[df|x] w1]; simpl in Hbody.
    + destruct checkpointing; simpl; [|by rewrite Hbody].
      rewrite lookup_insert_ne by done. by rewrite Hbody.
    + simpl. by rewrite Hbody.
Qed.

(** C2, as stated, fails: with [n_components = 3] and with
    [n_components = 2] the Reducer's artifact has the same key, and so has
    the artifact of the downstream merge. *)
Lemma same_location_for_other_n_components :
  result_location TASK_OUTPUT
    (formatting_kwargs "reduce_dimension" [("n_components", pretty 3%Z)])
    = Ok "data/final/reduce_dimension.csv"
  ∧ result_location TASK_OUTPUT
      (formatting_kwargs "reduce_dimension" [("n_components", pretty 2%Z)])
    = Ok "data/final/reduce_dimension.csv"
  ∧ result_location TASK_OUTPUT (formatting_kwargs "insert_clusters_to_df" [])
    = Ok "data/final/insert_clusters_to_df.csv".
Proof. split_and!; by vm_compute. Qed.

Lemma artifact_location_by_task_name_witness :
  result_location TASK_OUTPUT
    (formatting_kwargs "reduce_dimension" [("n_components", "3")])
    = Ok (OUTPUT_DIR +:+ "reduce_dimension" +:+ ".csv")
  ∧ result_location TASK_OUTPUT
      (formatting_kwargs "reduce_dimension" [("n_components", "2")])
    = result_location TASK_OUTPUT
        (formatting_kwargs "reduce_dimension" [("n_components", "3")]).
Proof.
  pose proof (artifact_location_by_task_name "reduce_dimension"
                [("n_components", "3")] [("n_components", "2")]) as Hloc.
  destruct Hloc as (Hfst & Hsnd & _).
  - reflexivity.
  - simpl. not_in_list.
  - simpl. not_in_list.
  - split; [exact Hfst|exact Hsnd].
Defined.

(** ** What a task leaves untouched *)

Definition rng_blind {B} (part : world → B) : Prop :=
  ∀ s w, part (with_rng s w) = part w.

Lemma frames_rng_blind : rng_blind frames.
Proof. done. Qed.
Lemma files_rng_blind : rng_blind files.
Proof. done. Qed.
Lemma trace_rng_blind : rng_blind trace.
Proof. done. Qed.

Section Keeps.
Context {B : Type} (part : world → B).

Lemma keeps_ret {A} (a : A) : keeps part (mret a).
Proof. done. Qed.

Lemma keeps_lift {A} (r : result A) : keeps part (lift r).
Proof. done. Qed.

Lemma keeps_raise {A} (e : exn) : keeps part (raise (A:=A) e).
Proof. done. Qed.

Lemma keeps_bind {A C} (m : M A) (f : A → M C) :
  keeps part m → (∀ a, keeps part (f a)) → keeps part (m ≫= f).
Proof.
  intros Hm Hf w. unfold mbind, M_bind. specialize (Hm w).
  destruct (m w) as [[a|e] w1]; simpl in *; [|done].
  by rewrite Hf.
Qed.

Context `{!Sklearn, !Yellowbrick} (Hblind : rng_blind part).

Lemma est_fit_keeps e df : keeps part (est_fit e df).
Proof.
  intros w. unfold est_fit. destruct (to_array df) as [X|x]; [|done].
  destruct (cluster_fit _ _ _ X) as [[f|x] s]; apply Hblind.
Qed.

Lemma reduce_dimension_keeps df n names : keeps part (reduce_dimension df n names).
Proof.
  apply keeps_bind; [|intros; apply keeps_lift].
  intros w. unfold PCA_fit_transform. destruct (to_array df) as [X|x]; [|done].
  destruct (pca_fit _ _ X) as [[m|x] s]; apply Hblind.
Qed.

Lemma kelbow_scores_keeps e score df ks : keeps part (kelbow_scores e score df ks).
Proof.
  revert e. induction ks as [|k ks IH]; intros e; simpl.
  - apply keeps_ret.
  - apply keeps_bind; [apply est_fit_keeps|]. intros e1.
    apply keeps_bind; [apply keeps_lift|]. intros s.
    apply keeps_bind; [apply IH|]. intros [e2 ss]. apply keeps_ret.
Qed.

Lemma kelbow_fit_keeps v df : keeps part (kelbow_fit v df).
Proof.
  apply keeps_bind; [apply kelbow_scores_keeps|]. intros [e ss]. apply keeps_ret.
Qed.

Context `{!Interp}.

Lemma get_best_k_cluster_keeps alg c score image_path df :
  (∀ path, keeps part (savefig path)) →
  (∀ kv, keeps part (wandb_log kv)) →
  (alg, c) ∈ clusterer_names →
  keeps part (get_best_k_cluster df {| algorithm := alg; metric := score |} image_path).
Proof.
  intros Hsave Hlog Hc w. rewrite (get_best_k_cluster_clusterer _ _ _ _ _ _ Hc).
  revert w. apply keeps_bind; [apply keeps_lift|]. intros v.
  apply keeps_bind; [apply kelbow_fit_keeps|]. intros v'.
  apply keeps_bind; [|intros; apply keeps_ret].
  apply keeps_bind; [apply Hsave|]. intros _. apply Hlog.
Qed.

Lemma get_clusters_model_keeps alg c df k :
  (alg, c) ∈ clusterer_names →
  keeps part (get_clusters_model df alg k).
Proof.
  intros Hc w. rewrite (get_clusters_model_clusterer _ _ _ _ _ Hc).
  revert w. apply keeps_bind; [apply est_fit_keeps|]. intros e. apply keeps_ret.
Qed.
End Keeps.

Section KeepsFrames.
Context `{!Interp, !Sklearn, !Yellowbrick}.

Lemma get_best_k_cluster_keeps_frames alg c score image_path df :
  (alg, c) ∈ clusterer_names →
  keeps frames
    (get_best_k_cluster df {| algorithm := alg; metric := score |} image_path).
Proof.
  apply get_best_k_cluster_keeps;
    [apply frames_rng_blind|apply savefig_frames|apply wandb_log_frames].
Qed.

Lemma create_3d_plot_keeps_frames projection image_path :
  keeps frames (create_3d_plot projection image_path).
Proof.
  apply keeps_bind; [apply ax_scatter_frames|]. intros _.
  apply keeps_bind; [apply savefig_frames|]. intros _. apply wandb_log_frames.
Qed.

Lemma predict_keeps_frames e df : keeps frames (predict (ClustererObj e) df).
Proof. apply keeps_lift. Qed.
End KeepsFrames.

(** [df[name] = vals] and what it makes of the columns. *)
Lemma frame_setitem_Ok name vals df df' :
  frame_setitem name vals df = Ok df' →
  df' = set_column name vals (ensure_valid_index vals df)
  ∧ length vals = len (ensure_valid_index vals df).
Proof. unfold frame_setitem. case_decide; [|done]. by intros [= <-]. Qed.

Lemma frame_setitem_is_ok name vals df :
  is_ok (frame_setitem name vals df) = true
  ↔ length vals = len df ∨ rows df = [].
Proof.
  unfold frame_setitem, ensure_valid_index, len.
  destruct (rows df) as [|r rs] eqn:Hr, vals as [|v vals]; simpl.
  - rewrite Hr. simpl. tauto.
  - rewrite length_map. rewrite decide_True by done. simpl. tauto.
  - rewrite Hr. simpl. split; [done|]. by intros [|].
  - rewrite Hr. simpl. case_decide; simpl; split; try done.
    + tauto.
    + by intros [|].
Qed.

Lemma ensure_valid_index_rows vals df :
  rows df ≠ [] → ensure_valid_index vals df = df.
Proof. unfold ensure_valid_index. by destruct (rows df). Qed.

Lemma ensure_valid_index_same vals df :
  length vals = len df → ensure_valid_index vals df = df.
Proof.
  unfold ensure_valid_index, len. destruct (rows df), vals; done.
Qed.

Lemma ensure_valid_index_columns vals df :
  columns (ensure_valid_index vals df) = columns df.
Proof. unfold ensure_valid_index. by destruct (rows df), vals. Qed.

Lemma ensure_valid_index_wf vals df :
  wf_frame df → wf_frame (ensure_valid_index vals df).
Proof.
  intros Hwf. unfold ensure_valid_index.
  destruct (rows df) eqn:Hr, vals; try done.
  unfold wf_frame. simpl. constructor; [by rewrite length_map|].
  apply Forall_forall. intros r (x & -> & _)%list_elem_of_fmap.
  by rewrite length_map.
Qed.

Lemma columns_set_column name vals df :
  columns (set_column name vals df)
    = if decide (name ∈ columns df) then columns df else columns df ++ [name].
Proof.
  unfold set_column. case_decide as Hin.
  - by destruct (column_index_Some _ _ Hin) as [i ->].
  - by rewrite (column_index_None _ _ Hin).
Qed.

Lemma set_column_has_column name vals df :
  name ∈ columns (set_column name vals df).
Proof.
  rewrite columns_set_column. case_decide; [done|].
  apply elem_of_app. right. apply list_elem_of_here.
Qed.

(** ** C8: which stage changes the columns of an earlier value *)

(** The world once the frame at [l] is replaced by [df]. *)
Definition with_frame (l : nat) (df : DataFrame) (w : world) : world :=
  {| frames := <[l := df]> (frames w); files := files w; bento := bento w;
     rng := rng w; trace := trace w |}.

Section Columns.
Context `{!Interp, !Sklearn, !Yellowbrick}.

(** The drawing part of [plot_clusters]. *)
Definition draw_clusters (projections : Projection) (c : Series)
    (image_path : string) : M unit :=
  ax_scatter projections (Some c);;
  savefig image_path;;
  wandb_log [("clusters", Image image_path)].

Lemma draw_clusters_keeps_frames projections c image_path :
  keeps frames (draw_clusters projections c image_path).
Proof.
  apply keeps_bind; [apply ax_scatter_frames|]. intros _.
  apply keeps_bind; [apply savefig_frames|]. intros _. apply wandb_log_frames.
Qed.

Lemma plot_clusters_refused l preds projections image_path w df e :
  frames w !! l = Some df → frame_setitem "clusters" preds df = Err e →
  plot_clusters l preds projections image_path w = (Err e, w).
Proof.
  intros Hl Hset. unfold plot_clusters. rewrite M_bind_eq.
  unfold setitem. by rewrite Hl, Hset.
Qed.

Lemma getitem_set_column_is_ok name vals df :
  is_ok (getitem (set_column name vals df) name) = true.
Proof. apply getitem_is_ok, set_column_has_column. Qed.

Lemma plot_clusters_assigned l preds projections image_path w df df' :
  frames w !! l = Some df → frame_setitem "clusters" preds df = Ok df' →
  ∃ c, getitem df' "clusters" = Ok c
       ∧ plot_clusters l preds projections image_path w
         = draw_clusters projections c image_path (with_frame l df' w)
       ∧ frames (plot_clusters l preds projections image_path w).2
         = <[l := df']> (frames w).
Proof.
  intros Hl Hset. unfold plot_clusters. rewrite M_bind_eq.
  unfold setitem. rewrite Hl, Hset. fold (with_frame l df' w).
  rewrite M_bind_eq. unfold deref. cbn [frames with_frame].
  rewrite lookup_insert_eq. rewrite M_bind_eq. unfold lift.
  apply frame_setitem_Ok in Hset as [-> _].
  pose proof (getitem_set_column_is_ok "clusters" preds
                (ensure_valid_index preds df)) as Hok.
  destruct (getitem _ "clusters") as [c|x]; [|done].
  exists c. split; [done|]. split; [done|].
  fold (draw_clusters projections c image_path).
  by rewrite draw_clusters_keeps_frames.
Qed.

(** C8 (amended).  With an algorithm string that names one of the three
    clustering classes, no task other than [plot_clusters] changes a frame
    that is in memory: [reduce_dimension], [create_3d_plot],
    [get_best_k_cluster], [get_clusters_model], [save_model], [predict]
    and [insert_clusters_to_df] leave every frame as it is
    ([get_3d_projection] has no access to the world at all).  The merge
    returns a new frame, with the column [clusters] set, stored at an
    address of its own.  [plot_clusters] sets the column [clusters] of the
    Reduced Dataset in place, adding the column when the frame has none of
    that name, and the frame stays changed whether or not the drawing
    that follows succeeds. *)
Theorem only_plot_clusters_changes_a_frame
    (alg : string) (c : clusterer) (score image_path name : string)
    (df pca_df : DataFrame) (n : Z) (names : list string) (k : option Z)
    (e : Estimator) (preds : Series) (projections : Projection) :
  (alg, c) ∈ clusterer_names →
  keeps frames (reduce_dimension df n names)
  ∧ keeps frames (create_3d_plot projections image_path)
  ∧ keeps frames (get_best_k_cluster pca_df {| algorithm := alg; metric := score |}
                    image_path)
  ∧ keeps frames (get_clusters_model pca_df alg k)
  ∧ keeps frames (save_model (ClustererObj e) name)
  ∧ keeps frames (predict (ClustererObj e) pca_df)
  ∧ keeps frames (insert_clusters_to_df df preds)
  ∧ (∀ merged w w', insert_clusters_to_df df preds w = (Ok merged, w') →
       merged = set_column "clusters" preds (ensure_valid_index preds df))
  ∧ (∀ w, let '(l, w') := alloc df w in
          frames w !! l = None ∧ frames w' = <[l := df]> (frames w))
  ∧ (∀ l w, frames w !! l = Some pca_df → length preds = len pca_df →
       ∃ r w', plot_clusters l preds projections image_path w = (r, w')
             ∧ frames w' = <[l := set_column "clusters" preds pca_df]> (frames w)
             ∧ columns (set_column "clusters" preds pca_df)
               = if decide ("clusters" ∈ columns pca_df) then columns pca_df
                 else columns pca_df ++ ["clusters"]).
Proof.
  intros Hc. split_and!.
  - apply reduce_dimension_keeps, frames_rng_blind.
  - apply create_3d_plot_keeps_frames.
  - by eapply get_best_k_cluster_keeps_frames.
  - by eapply get_clusters_model_keeps; [apply frames_rng_blind|].
  - done.
  - apply keeps_lift.
  - apply keeps_lift.
  - unfold insert_clusters_to_df, lift, assign. intros merged w w' [= Hm _].
    by apply frame_setitem_Ok in Hm as [-> _].
  - intros w. unfold alloc. split; [|done].
    apply not_elem_of_dom, is_fresh.
  - intros l w Hl Hlen.
    assert (Hset : frame_setitem "clusters" preds pca_df
                   = Ok (set_column "clusters" preds pca_df)).
    { unfold frame_setitem. rewrite ensure_valid_index_same by done.
      by rewrite decide_True. }
    destruct (plot_clusters_assigned l preds projections image_path w _ _ Hl Hset)
      as (c' & _ & _ & Hframes).
    destruct (plot_clusters l preds projections image_path w) as [r w'].
    exists r, w'. split; [done|]. split; [exact Hframes|].
    apply columns_set_column.
Qed.
End Columns.

(** C8, as stated, fails.  In a run of the whole flow the Reduced Dataset
    is stored with the three configured columns, and the very frame
    [reduce_dimension] returned has a fourth one, [clusters], once
    [plot_clusters] has run; the final merge did not touch it. *)
Lemma plot_clusters_adds_a_column :
  let run := @segment Reference.interp Reference.sklearn Reference.yellowbrick
               Reference.fresh_run Reference.config Reference.twelve_customers
               empty_world in
  ∃ l, st_reduce_dimension run.1 = Ok l
       ∧ is_ok (st_predict run.1) = true
       ∧ columns <$> files run.2 !! "data/final/reduce_dimension.csv"
         = Some ["col1"; "col2"; "col3"]
       ∧ columns <$> frames run.2 !! l = Some ["col1"; "col2"; "col3"; "clusters"].
Proof. eexists. by vm_compute. Qed.

Lemma only_plot_clusters_changes_a_frame_witness :
  keeps frames
    (@get_clusters_model Reference.interp Reference.sklearn Reference.customers
       "KMeans" (Some 3%Z))
  ∧ (∀ merged w w',
       insert_clusters_to_df Reference.customers (replicate 9 (Int 0)) w
         = (Ok merged, w') →
       merged = set_column "clusters" (replicate 9 (Int 0))
                  (ensure_valid_index (replicate 9 (Int 0)) Reference.customers)).
Proof.
  pose proof (@only_plot_clusters_changes_a_frame Reference.interp
                Reference.sklearn Reference.yellowbrick "KMeans" KMeans
                "distortion" "image/elbow.png" "customer_segmentation_kmeans"
                Reference.customers Reference.customers 3
                ["col1"; "col2"; "col3"] (Some 3%Z)
                (new_estimator KMeans (Some 3%Z)) (replicate 9 (Int 0))
                {| proj_x := []; proj_y := []; proj_z := [] |}) as Hthm.
  destruct Hthm as (_ & _ & _ & Hfit & _ & _ & _ & Hmerge & _).
  - unfold clusterer_names. in_list.
  - split; [exact Hfit|exact Hmerge].
Defined.

(** ** C9: what a second run recomputes *)

Lemma F_bind_eq {A B} (m : F A) (f : A → F B) (w : world) :
  (m ≫= f) w = let '(a, w') := m w in f a w'.
Proof. done. Qed.

Definition ran (b : bool) (name : string) : list string :=
  if b then [name] else [].

Section Trace.
Context `{!Interp, !Sklearn, !Yellowbrick, !Orchestration}.

Lemma py_eval_keeps_trace locals s : keeps trace (py_eval locals s).
Proof.
  unfold py_eval. destruct (is_name s); [|apply eval_expression_trace].
  case_bool_decide; [apply keeps_ret|].
  destruct (module_globals !! s); [apply keeps_ret|].
  case_bool_decide; [apply keeps_ret|apply keeps_raise].
Qed.

Lemma py_call_keeps_trace f args : keeps trace (py_call f args).
Proof.
  destruct f, args; simpl;
    first [apply keeps_ret | apply keeps_raise | apply call_opaque_trace].
Qed.

Lemma get_best_k_cluster_keeps_trace df cfg image_path :
  keeps trace (get_best_k_cluster df cfg image_path).
Proof.
  apply keeps_bind; [apply py_eval_keeps_trace|]. intros cls.
  apply keeps_bind; [apply py_call_keeps_trace|]. intros model.
  destruct model; try apply elbow_opaque_trace; [|apply keeps_raise].
  apply keeps_bind; [apply keeps_lift|]. intros v.
  apply keeps_bind; [apply kelbow_fit_keeps, trace_rng_blind|]. intros v'.
  apply keeps_bind; [apply savefig_trace|]. intros _.
  apply keeps_bind; [apply wandb_log_trace|]. intros _.
  apply keeps_ret.
Qed.

Lemma create_3d_plot_keeps_trace projection image_path :
  keeps trace (create_3d_plot projection image_path).
Proof.
  apply keeps_bind; [apply ax_scatter_trace|]. intros _.
  apply keeps_bind; [apply savefig_trace|]. intros _. apply wandb_log_trace.
Qed.

Lemma get_clusters_model_keeps_trace df alg k :
  keeps trace (get_clusters_model df alg k).
Proof.
  apply keeps_bind; [apply py_eval_keeps_trace|]. intros cls.
  apply keeps_bind; [apply py_call_keeps_trace|]. intros model.
  destruct model; try apply fit_opaque_trace.
  apply keeps_bind; [apply est_fit_keeps, trace_rng_blind|]. intros e'.
  apply keeps_ret.
Qed.

Lemma predict_keeps_trace model df : keeps trace (predict model df).
Proof. destruct model; try apply predict_opaque_trace. apply keeps_lift. Qed.

Lemma deref_keeps_trace l : keeps trace (deref l).
Proof. intros w. unfold deref. by destruct (frames w !! l). Qed.

Lemma plot_clusters_keeps_trace l preds projections image_path :
  keeps trace (plot_clusters l preds projections image_path).
Proof.
  apply keeps_bind.
  { intros w. unfold setitem. destruct (frames w !! l) as [df|]; [|done].
    by destruct (frame_setitem "clusters" preds df). }
  intros _. apply keeps_bind; [apply deref_keeps_trace|]. intros df.
  apply keeps_bind; [apply keeps_lift|]. intros c.
  apply keeps_bind; [apply ax_scatter_trace|]. intros _.
  apply keeps_bind; [apply savefig_trace|]. intros _. apply wandb_log_trace.
Qed.

Lemma task_trace {A} name (up : result (M A)) w :
  (∀ body, up = Ok body → keeps trace body) →
  trace (task name up w).2 = trace w ++ ran (is_ok up) name.
Proof.
  intros Hup. unfold task. destruct up as [body|e]; simpl.
  - by rewrite (Hup body eq_refl (log_run name w)).
  - by rewrite app_nil_r.
Qed.

Lemma task_not_run {A} name (up : result (M A)) w :
  is_ok up = false → is_ok (task name up w).1 = false.
Proof. by destruct up. Qed.

Lemma artifact_task_trace name r inputs (up : result (M DataFrame)) w :
  (∀ body, up = Ok body → keeps trace body) →
  ∃ b : bool,
    trace (artifact_task name r inputs up w).2 = trace w ++ ran b name
    ∧ (reuse_stored_result = false →
       is_ok (result_location r (formatting_kwargs name inputs)) = true →
       b = is_ok up).
Proof.
  intros Hup. unfold artifact_task. destruct up as [body|e]; simpl.
  2: { exists false. by rewrite app_nil_r. }
  destruct (result_location r _) as [path|e]; simpl.
  2: { exists false. rewrite app_nil_r. split; [done|]. by intros _ [=]. }
  destruct reuse_stored_result eqn:Hreuse.
  - destruct (files w !! path) as [df|].
    + exists false. rewrite app_nil_r. split; [done|]. by intros [=].
    + exists true. split; [|done].
      specialize (Hup body eq_refl (log_run name w)).
      destruct (body (log_run name w)) as [[df|x] w1]; simpl in *; [|done].
      by destruct checkpointing.
  - exists true. split; [|done].
    specialize (Hup body eq_refl (log_run name w)).
    destruct (body (log_run name w)) as [[df|x] w1]; simpl in *; [|done].
    by destruct checkpointing.
Qed.
End Trace.

Ltac solve_keeps :=
  repeat first
    [ apply keeps_ret
    | apply keeps_lift
    | apply deref_keeps_trace
    | apply get_best_k_cluster_keeps_trace
    | apply get_clusters_model_keeps_trace
    | apply predict_keeps_trace
    | apply create_3d_plot_keeps_trace
    | apply plot_clusters_keeps_trace
    | apply reduce_dimension_keeps, trace_rng_blind
    | (apply keeps_bind; [|intros ?])
    | (intros ?; reflexivity) ].

Ltac up_keeps :=
  let body := fresh "body" in
  let Hb := fresh "Hb" in
  intros body Hb;
  repeat match goal with x : result _ |- _ => destruct x; simplify_eq/= end;
  try (injection Hb as <-);
  solve_keeps.

Ltac step_task T :=
  rewrite F_bind_eq in * |-;
  match goal with
  | Hrun : context [@task ?A ?n ?up ?w0] |- _ =>
      assert (T : trace (@task A n up w0).2 = trace w0 ++ ran (is_ok up) n)
        by (apply task_trace; up_keeps);
      destruct (@task A n up w0) as [? ?] eqn:?
  end.

Section Rerun.
Context `{!Interp, !Sklearn, !Yellowbrick, !Orchestration}.

(** C9 (amended).  Whatever the store holds when a run starts, also after
    a run with the same parameters, every task declared with a plain
    [@task] runs its body again as soon as the tasks it depends on
    succeeded: it has no stored result to fall back on.  Only
    [reduce_dimension] and [insert_clusters_to_df] have an artifact, and
    only they can be skipped; when stored results are not reused they run
    again as well.  The bodies that ran are given up to their order, which
    Prefect chooses among the orders the dependencies allow.  That the
    second run's output equals the first's is not promised. *)
Theorem plain_tasks_run_again (config : Config) (data : DataFrame) (w w' : world)
    (r : FlowRun) :
  segment config data w = (r, w') →
  ∃ b1 b2 : bool,
    trace w' ≡ₚ trace w
      ++ ran b1 "reduce_dimension"
      ++ ran (is_ok (st_reduce_dimension r)) "get_3d_projection"
      ++ ran (is_ok (st_get_3d_projection r)) "create_3d_plot"
      ++ ran (is_ok (st_reduce_dimension r)) "get_best_k_cluster"
      ++ ran (is_ok (st_reduce_dimension r) && is_ok (st_get_best_k_cluster r))
           "get_clusters_model"
      ++ ran (is_ok (st_get_clusters_model r)) "save_model"
      ++ ran (is_ok (st_get_clusters_model r) && is_ok (st_reduce_dimension r))
           "predict"
      ++ ran b2 "insert_clusters_to_df"
      ++ ran (is_ok (st_reduce_dimension r) && is_ok (st_predict r)
              && is_ok (st_get_3d_projection r)) "plot_clusters"
    ∧ (reuse_stored_result = false → b1 = true ∧ b2 = is_ok (st_predict r)).
Proof.
  unfold segment. intros Hrun.
  rewrite F_bind_eq in Hrun.
  destruct (alloc data w) as [data_l w0] eqn:E0.
  assert (T0 : trace w0 = trace w) by (by injection E0 as _ <-).
  rewrite F_bind_eq in Hrun.
  match type of Hrun with context [artifact_task ?n ?r ?i ?up w0] =>
    destruct (artifact_task_trace n r i up w0) as (b1 & T1 & B1); [up_keeps|];
    destruct (artifact_task n r i up w0) as [pca_df w1] eqn:E1
  end.
  step_task T2. step_task T3. step_task T4. step_task T5. step_task T6.
  step_task T7.
  rewrite F_bind_eq in Hrun.
  match type of Hrun with context [artifact_task ?n ?r ?i ?up ?w7] =>
    destruct (artifact_task_trace n r i up w7) as (b2 & T8 & B2); [up_keeps|];
    destruct (artifact_task n r i up w7) as [merged w8] eqn:E8
  end.
  step_task T9.
  cbv [mret F_ret] in Hrun. injection Hrun as <- <-.
  exists b1, b2. cbn [snd] in *. cbn [st_reduce_dimension st_get_3d_projection
    st_get_best_k_cluster st_get_clusters_model st_predict].
  split.
  - rewrite T9, T8, T7, T6, T5, T4, T3, T2, T1, T0. rewrite <- !app_assoc.
    by destruct pca_df, r0, r2, r3, r5.
  - intros Hreuse. split.
    + rewrite B1; [done|done|].
      by rewrite result_location_TASK_OUTPUT by (done || (simpl; not_in_list)).
    + rewrite B2; [by destruct r5|done|].
      by rewrite result_location_TASK_OUTPUT by (done || (simpl; not_in_list)).
Qed.
End Rerun.

(** Two runs in a row on the twelve customers, the second on the store
    the first one left; stored results are written and not read back. *)
Definition first_run : FlowRun * world :=
  @segment Reference.interp Reference.sklearn Reference.yellowbrick
    Reference.fresh_run Reference.config Reference.twelve_customers empty_world.

Definition second_run : FlowRun * world :=
  @segment Reference.interp Reference.sklearn Reference.yellowbrick
    Reference.fresh_run Reference.config Reference.twelve_customers first_run.2.

Lemma second_run_trace :
  drop (length (trace first_run.2)) (trace second_run.2)
  = [ "reduce_dimension"; "get_3d_projection"; "create_3d_plot";
      "get_best_k_cluster"; "get_clusters_model"; "save_model"; "predict";
      "insert_clusters_to_df"; "plot_clusters" ].
Proof. by vm_compute. Qed.

(** C9, as stated, fails.  A second run with the same parameters, on the
    store the first run left, runs the bodies of all nine tasks again. *)
Lemma second_run_recomputes :
  is_ok (st_insert_clusters_to_df first_run.1) = true
  ∧ drop (length (trace first_run.2)) (trace second_run.2)
    ≡ₚ [ "reduce_dimension"; "get_3d_projection"; "create_3d_plot";
         "get_best_k_cluster"; "get_clusters_model"; "save_model"; "predict";
         "insert_clusters_to_df"; "plot_clusters" ].
Proof. split; [by vm_compute|by rewrite second_run_trace]. Qed.

Lemma plain_tasks_run_again_witness :
  ∃ b1 b2 : bool,
    trace second_run.2 ≡ₚ trace first_run.2
      ++ ran b1 "reduce_dimension"
      ++ ran (is_ok (st_reduce_dimension second_run.1)) "get_3d_projection"
      ++ ran (is_ok (st_get_3d_projection second_run.1)) "create_3d_plot"
      ++ ran (is_ok (st_reduce_dimension second_run.1)) "get_best_k_cluster"
      ++ ran (is_ok (st_reduce_dimension second_run.1)
              && is_ok (st_get_best_k_cluster second_run.1)) "get_clusters_model"
      ++ ran (is_ok (st_get_clusters_model second_run.1)) "save_model"
      ++ ran (is_ok (st_get_clusters_model second_run.1)
              && is_ok (st_reduce_dimension second_run.1)) "predict"
      ++ ran b2 "insert_clusters_to_df"
      ++ ran (is_ok (st_reduce_dimension second_run.1)
              && is_ok (st_predict second_run.1)
              && is_ok (st_get_3d_projection second_run.1)) "plot_clusters"
    ∧ b1 = true ∧ b2 = is_ok (st_predict second_run.1).
Proof.
  destruct (@plain_tasks_run_again Reference.interp Reference.sklearn
              Reference.yellowbrick Reference.fresh_run Reference.config
              Reference.twelve_customers first_run.2 second_run.2
              second_run.1 (surjective_pairing second_run))
    as (b1 & b2 & Htrace & Hfresh).
  exists b1, b2. split; [exact Htrace|]. by apply Hfresh.
Defined.

(** * Further properties of the tasks *)

(** ** Setting a column and reading it back *)

Lemma column_index_lookup name cols i :
  column_index name cols = Some i → cols !! i = Some name.
Proof.
  unfold column_index. destruct (list_find _ cols) as [[j x]|] eqn:E; [|done].
  intros [= <-]. by apply list_find_Some in E as (Hl & -> & _).
Qed.

Lemma column_index_inj name other cols i :
  column_index name cols = Some i → column_index other cols = Some i →
  other = name.
Proof.
  intros H1%column_index_lookup H2%column_index_lookup. congruence.
Qed.

Lemma column_index_app_new name cols :
  name ∉ cols → column_index name (cols ++ [name]) = Some (length cols).
Proof.
  intros Hin. unfold column_index.
  rewrite list_find_app_r.
  - simpl. by rewrite decide_True by done.
  - apply list_find_None, Forall_forall. by intros x Hx ->.
Qed.

Lemma column_index_app_other name other cols :
  other ≠ name → column_index other (cols ++ [name]) = column_index other cols.
Proof.
  intros Hne. unfold column_index.
  destruct (list_find (λ c, c = other) cols) as [[j x]|] eqn:E.
  - by rewrite (list_find_app_l _ _ _ _ _ E).
  - rewrite list_find_app_r by done. simpl. by rewrite decide_False by done.
Qed.

Lemma read_after_insert (i : nat) (rs : list (list cell)) (vals : list cell) :
  length vals = length rs → Forall (λ r, i < length r) rs →
  map (λ r : list cell, r !!! i) (zip_with (λ r v, <[i := v]> r) rs vals) = vals.
Proof.
  revert vals. induction rs as [|r rs IH]; intros [|v vals] Hlen Hall;
    simpl in *; try done.
  apply Forall_cons in Hall as [Hr Hall].
  rewrite list_lookup_total_insert_eq by done. f_equal. apply IH; [lia|done].
Qed.

Lemma read_other_after_insert (i j : nat) (rs : list (list cell)) (vals : list cell) :
  i ≠ j → length vals = length rs →
  map (λ r : list cell, r !!! j) (zip_with (λ r v, <[i := v]> r) rs vals)
    = map (λ r : list cell, r !!! j) rs.
Proof.
  intros Hne. revert vals. induction rs as [|r rs IH]; intros [|v vals] Hlen;
    simpl in *; try done.
  rewrite list_lookup_total_insert_ne by done. f_equal. apply IH. lia.
Qed.

Lemma read_after_snoc (c : nat) (rs : list (list cell)) (vals : list cell) :
  length vals = length rs → Forall (λ r, length r = c) rs →
  map (λ r : list cell, r !!! c) (zip_with (λ r v, r ++ [v]) rs vals) = vals.
Proof.
  revert vals. induction rs as [|r rs IH]; intros [|v vals] Hlen Hall;
    simpl in *; try done.
  apply Forall_cons in Hall as [Hr Hall]. subst c.
  rewrite list_lookup_total_middle by done. f_equal. apply IH; [lia|done].
Qed.

Lemma read_other_after_snoc (j : nat) (rs : list (list cell)) (vals : list cell) :
  length vals = length rs → Forall (λ r, j < length r) rs →
  map (λ r : list cell, r !!! j) (zip_with (λ r v, r ++ [v]) rs vals)
    = map (λ r : list cell, r !!! j) rs.
Proof.
  revert vals. induction rs as [|r rs IH]; intros [|v vals] Hlen Hall;
    simpl in *; try done.
  apply Forall_cons in Hall as [Hr Hall].
  rewrite lookup_total_app_l by done. f_equal. apply IH; [lia|done].
Qed.

Lemma set_column_len name vals df :
  length vals = len df → len (set_column name vals df) = len df.
Proof.
  intros Hlen. unfold set_column, len in *.
  destruct (column_index name (columns df)); simpl;
    rewrite length_zip_with; lia.
Qed.

Lemma set_column_wf name vals df :
  wf_frame df → wf_frame (set_column name vals df).
Proof.
  unfold wf_frame, set_column. intros Hwf.
  destruct (column_index name (columns df)) as [i|]; simpl.
  - revert vals. induction Hwf as [|r rs Hr _ IH]; intros [|v vals]; simpl;
      try done.
    constructor; [by rewrite length_insert|apply IH].
  - revert vals. induction Hwf as [|r rs Hr _ IH]; intros [|v vals]; simpl;
      try done.
    constructor; [|apply IH]. rewrite !length_app. simpl. lia.
Qed.

Lemma wf_frame_index df name i :
  wf_frame df → column_index name (columns df) = Some i →
  Forall (λ r, i < length r) (rows df).
Proof.
  intros Hwf Hi%column_index_lookup%lookup_lt_Some.
  eapply Forall_impl; [exact Hwf|]. simpl. intros r ->. done.
Qed.

Lemma getitem_set_column_same name vals df :
  wf_frame df → length vals = len df →
  getitem (set_column name vals df) name = Ok vals.
Proof.
  intros Hwf Hlen. unfold getitem, set_column.
  destruct (column_index name (columns df)) as [i|] eqn:Hi; simpl.
  - rewrite Hi. f_equal. apply read_after_insert; [done|].
    by eapply wf_frame_index.
  - rewrite column_index_app_new.
    + f_equal. by apply read_after_snoc.
    + intros Hin. apply column_index_Some in Hin as [? Hin]. congruence.
Qed.

Lemma getitem_set_column_other name other vals df :
  wf_frame df → length vals = len df → other ≠ name →
  getitem (set_column name vals df) other = getitem df other.
Proof.
  intros Hwf Hlen Hne. unfold getitem, set_column.
  destruct (column_index name (columns df)) as [i|] eqn:Hi; simpl.
  - destruct (column_index other (columns df)) as [j|] eqn:Hj; [|done].
    f_equal. apply read_other_after_insert; [|done].
    intros ->. by pose proof (column_index_inj _ _ _ _ Hi Hj).
  - rewrite column_index_app_other by done.
    destruct (column_index other (columns df)) as [j|] eqn:Hj; [|done].
    f_equal. apply read_other_after_snoc; [done|].
    by eapply wf_frame_index.
Qed.

Lemma set_column_twice name a b df :
  wf_frame df → length a = len df →
  set_column name b (set_column name a df) = set_column name b df.
Proof.
  intros Hwf Ha. unfold set_column at 2 3.
  destruct (column_index name (columns df)) as [i|] eqn:Hi.
  - unfold set_column. cbn [columns rows]. rewrite Hi. f_equal.
    unfold len in Ha. clear Hi Hwf. revert a b Ha.
    induction (rows df) as [|r rs IH]; intros [|x a] [|y b] Ha; simpl in *;
      try done.
    rewrite list_insert_insert_eq. f_equal. apply IH. lia.
  - unfold set_column. cbn [columns rows].
    rewrite column_index_app_new.
    2: { intros Hin. apply column_index_Some in Hin as [? Hin]. congruence. }
    f_equal. unfold len, wf_frame in *. clear Hi. revert a b Ha.
    induction Hwf as [|r rs Hr _ IH]; intros [|x a] [|y b] Ha; simpl in *;
      try done.
    rewrite <- Hr, insert_app_r_alt, Nat.sub_diag by done. simpl.
    f_equal. rewrite Hr. apply IH. lia.
Qed.

(** ** [insert_clusters_to_df]: the merge, read back *)

(** A literal list of labels without repetition. *)
Ltac distinct_labels :=
  repeat (apply NoDup_cons_2; [not_in_list|]); apply NoDup_nil_2.

Lemma map_const_replicate {A B} (b : B) (l : list A) :
  map (λ _, b) l = replicate (length l) b.
Proof. induction l as [|x l IH]; simpl; [done|]. by rewrite IH. Qed.

Lemma getitem_no_rows vals df name :
  rows df = [] → name ∈ columns df →
  getitem (ensure_valid_index vals df) name = Ok (replicate (length vals) NaN).
Proof.
  intros Hr Hin. unfold getitem. rewrite ensure_valid_index_columns.
  destruct (column_index name (columns df)) as [i|] eqn:Hi.
  2: { apply column_index_Some in Hin as [? Hin]. congruence. }
  apply column_index_lookup, lookup_lt_Some in Hi. f_equal.
  unfold ensure_valid_index. rewrite Hr.
  destruct vals as [|v vals]; [by rewrite Hr|].
  cbn [rows]. rewrite map_map, <- map_const_replicate.
  apply map_ext. intros _.
  rewrite list_lookup_total_fmap by done. done.
Qed.

Lemma frame_setitem_reads_back name vals df df' :
  wf_frame df → frame_setitem name vals df = Ok df' →
  len df' = length vals ∧ wf_frame df'
  ∧ getitem df' name = Ok vals
  ∧ (rows df ≠ [] → ∀ other, other ≠ name → getitem df' other = getitem df other)
  ∧ (rows df = [] → ∀ other, other ≠ name → other ∈ columns df →
       getitem df' other = Ok (replicate (length vals) NaN)).
Proof.
  intros Hwf [-> Hlen]%frame_setitem_Ok.
  pose proof (ensure_valid_index_wf vals df Hwf) as Hwf'.
  split_and!.
  - rewrite set_column_len by done. done.
  - by apply set_column_wf.
  - by apply getitem_set_column_same.
  - intros Hr other Hne. rewrite getitem_set_column_other by done.
    by rewrite ensure_valid_index_rows.
  - intros Hr other Hne Hin. rewrite getitem_set_column_other by done.
    by apply getitem_no_rows.
Qed.

(** X1.  On a frame whose column labels are distinct,
    [insert_clusters_to_df] succeeds exactly when there is one label per
    row or the frame has no rows, and raises [ValueError] otherwise.
    The frame it returns has one row per label, its [clusters] column
    reads back as the labels that were passed, and every other column
    reads as it did in [df]; when [df] had no rows, every other column
    holds [NaN] on each of the new rows.  Nothing in the world changes. *)
Theorem insert_clusters_to_df_reads_back
    (df : DataFrame) (clusters : Series) (w : world) :
  wf_frame df → NoDup (columns df) →
  (is_ok (insert_clusters_to_df df clusters w).1 = true
   ↔ length clusters = len df ∨ rows df = [])
  ∧ (length clusters ≠ len df → rows df ≠ [] →
     insert_clusters_to_df df clusters w = (Err "ValueError", w))
  ∧ (∀ merged w', insert_clusters_to_df df clusters w = (Ok merged, w') →
       w' = w ∧ len merged = length clusters ∧ wf_frame merged
       ∧ getitem merged "clusters" = Ok clusters
       ∧ (rows df ≠ [] → ∀ name, name ≠ "clusters" →
            getitem merged name = getitem df name)
       ∧ (rows df = [] → ∀ name, name ≠ "clusters" → name ∈ columns df →
            getitem merged name = Ok (replicate (length clusters) NaN))).
Proof.
  intros Hwf _. unfold insert_clusters_to_df, lift, assign. cbn [fst].
  split_and!.
  - apply frame_setitem_is_ok.
  - intros Hlen Hr.
    destruct (frame_setitem "clusters" clusters df) as [d|x] eqn:Hset.
    + assert (Hok : is_ok (frame_setitem "clusters" clusters df) = true)
        by (by rewrite Hset).
      apply frame_setitem_is_ok in Hok. tauto.
    + unfold frame_setitem in Hset. by case_decide; simplify_eq.
  - intros merged w' [= Hset <-]. split; [done|].
    by apply frame_setitem_reads_back.
Qed.

Lemma insert_clusters_to_df_reads_back_witness :
  (∃ merged,
     insert_clusters_to_df Reference.customers (replicate 9 (Int 0)) empty_world
       = (Ok merged, empty_world)
     ∧ len merged = 9%nat
     ∧ getitem merged "clusters" = Ok (replicate 9 (Int 0))
     ∧ getitem merged "Age" = getitem Reference.customers "Age")
  ∧ (∃ merged,
       insert_clusters_to_df no_customers [Int 0; Int 1] empty_world
         = (Ok merged, empty_world)
       ∧ len merged = 2%nat
       ∧ getitem merged "clusters" = Ok [Int 0; Int 1]
       ∧ getitem merged "Age" = Ok [NaN; NaN]).
Proof.
  split.
  - eexists. split; [reflexivity|].
    destruct (insert_clusters_to_df_reads_back Reference.customers
                (replicate 9 (Int 0)) empty_world ltac:(repeat constructor)
                ltac:(distinct_labels))
      as (_ & _ & Hread).
    destruct (Hread _ _ eq_refl) as (_ & Hlen & _ & Hsame & Hother & _).
    split; [exact Hlen|]. split; [exact Hsame|].
    apply Hother; discriminate.
  - eexists. split; [reflexivity|].
    destruct (insert_clusters_to_df_reads_back no_customers [Int 0; Int 1]
                empty_world ltac:(repeat constructor) ltac:(distinct_labels))
      as (_ & _ & Hread).
    destruct (Hread _ _ eq_refl) as (_ & Hlen & _ & Hsame & _ & Hnan).
    split; [exact Hlen|]. split; [exact Hsame|].
    apply Hnan; [reflexivity|discriminate|simpl; in_list].
Defined.

(** X2.  Merging labels into a frame that already went through the merge
    replaces the [clusters] column: the result is the frame a single merge
    of the new labels gives, and no second column is added. *)
Theorem insert_clusters_to_df_last_wins
    (df : DataFrame) (a b : Series) (w : world) :
  wf_frame df → length a = len df → length b = len df →
  ∃ m1 m2,
    insert_clusters_to_df df a w = (Ok m1, w)
    ∧ insert_clusters_to_df m1 b w = (Ok m2, w)
    ∧ insert_clusters_to_df df b w = (Ok m2, w)
    ∧ columns m2 = columns m1.
Proof.
  intros Hwf Ha Hb.
  exists (set_column "clusters" a df), (set_column "clusters" b df).
  unfold insert_clusters_to_df, lift, assign, frame_setitem.
  rewrite !ensure_valid_index_same by (done || by rewrite set_column_len).
  rewrite !decide_True by (done || by rewrite set_column_len).
  rewrite set_column_twice by done. split_and!; try done.
  rewrite !columns_set_column.
  destruct (decide ("clusters" ∈ columns df)); reflexivity.
Qed.

Lemma insert_clusters_to_df_last_wins_witness :
  ∃ m1 m2,
    insert_clusters_to_df Reference.customers (replicate 9 (Int 0)) empty_world
      = (Ok m1, empty_world)
    ∧ insert_clusters_to_df m1 (replicate 9 (Int 1)) empty_world
      = (Ok m2, empty_world)
    ∧ insert_clusters_to_df Reference.customers (replicate 9 (Int 1)) empty_world
      = (Ok m2, empty_world)
    ∧ columns m2 = columns m1.
Proof.
  apply (insert_clusters_to_df_last_wins Reference.customers
           (replicate 9 (Int 0)) (replicate 9 (Int 1)) empty_world).
  - repeat constructor.
  - reflexivity.
  - reflexivity.
Defined.

(** ** [plot_clusters]: what the assignment touches *)

Section PlotClusters.
Context `{!Interp}.

(** X3.  [plot_clusters] on the frame at address [l], whose column labels
    are distinct.  With a label list whose length is not the row count of
    a frame that has rows it raises [ValueError] and changes nothing.
    With one label per row, or on a frame without rows, the column
    [clusters] is set first and the drawing follows: the result of the
    task is the result of the drawing, and whether the drawing succeeds or
    raises, the frame at [l] then has one row per label and reads the
    labels back under [clusters]; every other column reads as before when
    the frame had rows, and holds [NaN] on each new row when it had none;
    the frames at every other address are untouched. *)
Theorem plot_clusters_sets_only_clusters
    (l : nat) (preds : Series) (projections : Projection) (image_path : string)
    (w : world) (df : DataFrame) :
  frames w !! l = Some df → wf_frame df → NoDup (columns df) →
  (length preds ≠ len df → rows df ≠ [] →
   plot_clusters l preds projections image_path w = (Err "ValueError", w))
  ∧ (length preds = len df ∨ rows df = [] →
     ∃ df',
       plot_clusters l preds projections image_path w
         = draw_clusters projections preds image_path (with_frame l df' w)
       ∧ frames (plot_clusters l preds projections image_path w).2 !! l
         = Some df'
       ∧ len df' = length preds
       ∧ getitem df' "clusters" = Ok preds
       ∧ (rows df ≠ [] → ∀ name, name ≠ "clusters" →
            getitem df' name = getitem df name)
       ∧ (rows df = [] → ∀ name, name ≠ "clusters" → name ∈ columns df →
            getitem df' name = Ok (replicate (length preds) NaN))
       ∧ (∀ l', l' ≠ l →
            frames (plot_clusters l preds projections image_path w).2 !! l'
              = frames w !! l')).
Proof.
  intros Hl Hwf _. split.
  - intros Hlen Hr. apply (plot_clusters_refused _ _ _ _ _ df); [done|].
    destruct (frame_setitem "clusters" preds df) as [d|x] eqn:Hset.
    + assert (Hok : is_ok (frame_setitem "clusters" preds df) = true)
        by (by rewrite Hset).
      apply frame_setitem_is_ok in Hok. tauto.
    + unfold frame_setitem in Hset. by case_decide; simplify_eq.
  - intros Hok. apply (frame_setitem_is_ok "clusters" preds df) in Hok.
    destruct (frame_setitem "clusters" preds df) as [df'|x] eqn:Hset; [|done].
    destruct (frame_setitem_reads_back _ _ _ _ Hwf Hset)
      as (Hlen & _ & Hsame & Hother & Hnan).
    destruct (plot_clusters_assigned l preds projections image_path w df df'
                Hl Hset) as (c & Hc & Hrun & Hframes).
    rewrite Hsame in Hc. injection Hc as <-.
    exists df'. split; [exact Hrun|]. rewrite Hframes.
    split; [apply lookup_insert_eq|]. split; [done|]. split; [done|].
    split; [done|]. split; [done|]. intros l' Hne. by rewrite lookup_insert_ne.
Qed.
End PlotClusters.

(** Nine labels and a projection without points: the reference drawing
    raises, and the frame has its fourth column all the same. *)
Lemma plot_clusters_sets_only_clusters_witness :
  let w := {| frames := {[ 0%nat := Reference.customers ]}; files := ∅;
              bento := ∅; rng := 0; trace := [] |} in
  let run := @plot_clusters Reference.interp 0 (replicate 9 (Int 0))
               {| proj_x := []; proj_y := []; proj_z := [] |}
               "image/cluster.png" w in
  run.1 = Err "ValueError"
  ∧ ∃ df', frames run.2 !! 0%nat = Some df'
           ∧ getitem df' "clusters" = Ok (replicate 9 (Int 0))
           ∧ getitem df' "Age" = getitem Reference.customers "Age".
Proof.
  intros w run.
  destruct (proj2 (@plot_clusters_sets_only_clusters Reference.interp 0
                     (replicate 9 (Int 0))
                     {| proj_x := []; proj_y := []; proj_z := [] |}
                     "image/cluster.png" w Reference.customers
                     (lookup_singleton_eq _ _) ltac:(repeat constructor)
                     ltac:(distinct_labels))
              (or_introl eq_refl))
    as (df' & Hrun & Hl & _ & Hsame & Hother & _).
  split.
  - subst run. by rewrite Hrun.
  - exists df'. split; [exact Hl|]. split; [exact Hsame|].
    apply Hother; discriminate.
Defined.

(** ** [reduce_dimension]: what a returned frame tells *)

Section ReduceInv.
Context `{!Sklearn}.

Lemma to_array_numeric_inv df X : to_array df = Ok X → numeric_frame df.
Proof.
  unfold to_array. destruct (mapM _ (rows df)) as [X'|] eqn:HX; [|done].
  intros _. assert (HS : is_Some (mapM (mapM to_float) (rows df))) by eauto.
  apply mapM_is_Some_1 in HS. unfold numeric_frame.
  eapply Forall_impl; [exact HS|]. simpl. intros r Hr.
  by apply mapM_is_Some_1 in Hr.
Qed.

Lemma reduce_dimension_inv df n names w pca_df w' :
  reduce_dimension df n names w = (Ok pca_df, w') →
  ∃ X m, to_array df = Ok X
         ∧ (pca_fit (rng w) n X).1 = Ok m
         ∧ DataFrame_of_array (pca_transform m X) names = Ok pca_df
         ∧ w' = with_rng (pca_fit (rng w) n X).2 w.
Proof.
  unfold reduce_dimension, mbind, M_bind, PCA_fit_transform, lift.
  destruct (to_array df) as [X|x]; [|done].
  destruct (pca_fit (rng w) n X) as [[m|x] s] eqn:Hfit; [|done].
  destruct (DataFrame_of_array (pca_transform m X) names) as [d|x] eqn:Hd;
    [|done].
  intros [= <- <-]. exists X, m. by rewrite Hfit.
Qed.

Lemma reduce_dimension_len df n names w pca_df w' :
  reduce_dimension df n names w = (Ok pca_df, w') → len pca_df = len df.
Proof.
  intros (X & m & HX & _ & Hd & _)%reduce_dimension_inv.
  apply DataFrame_of_array_columns in Hd as (_ & Hrows & _).
  apply to_array_Ok in HX as (_ & Hlen & _).
  unfold len in *. rewrite Hrows. unfold pca_transform.
  by rewrite !length_map.
Qed.

(** X4.  What a successful [reduce_dimension] implies.  On a well-formed
    frame it returns only if every cell converts to a float (a number, or
    a text that reads as one), the frame has a row and a column, [n] lies
    between 0 and the number of rows and of columns, and exactly [n] names
    were given; the frame returned then has [len(df)] rows, carries the
    given names and holds floats only, and the call changed nothing but
    the state of the random generator. *)
Theorem reduce_dimension_success_needs
    (df : DataFrame) (n : Z) (names : list string) (w w' : world)
    (pca_df : DataFrame) :
  wf_frame df →
  reduce_dimension df n names w = (Ok pca_df, w') →
  numeric_frame df ∧ rows df ≠ [] ∧ columns df ≠ []
  ∧ (0 ≤ n)%Z
  ∧ (n ≤ Z.of_nat (len df))%Z ∧ (n ≤ Z.of_nat (length (columns df)))%Z
  ∧ Z.of_nat (length names) = n
  ∧ len pca_df = len df ∧ columns pca_df = names ∧ wf_frame pca_df
  ∧ Forall (Forall (λ c, ∃ q, c = Num q)) (rows pca_df)
  ∧ frames w' = frames w ∧ files w' = files w ∧ bento w' = bento w
  ∧ trace w' = trace w.
Proof.
  intros Hwf Hred. pose proof (reduce_dimension_len _ _ _ _ _ _ Hred) as Hlen'.
  apply reduce_dimension_inv in Hred as (X & m & HX & Hfit & Hd & ->).
  pose proof (to_array_numeric_inv _ _ HX) as Hnum.
  pose proof (to_array_rect _ _ Hwf HX) as Hrect.
  destruct (to_array_Ok _ _ HX) as (HXeq & Hlen & HXne & Hcols).
  apply DataFrame_of_array_columns in Hd as (Hnames & Hrows & Hwidth).
  pose proof (pca_fit_components _ _ _ _ Hfit) as Hcomp.
  assert (Hr : rows df ≠ []).
  { intros Hnil. apply HXne. rewrite HXeq, Hnil. done. }
  assert (Hn0 : (0 ≤ n)%Z).
  { destruct (Z.le_gt_cases 0 n) as [|Hneg]; [done|].
    rewrite (pca_fit_negative (rng w) n X) in Hfit; [done|lia]. }
  split_and!; try done.
  - destruct (Z.le_gt_cases n (Z.of_nat (len df))) as [|Hgt]; [done|].
    rewrite (pca_fit_too_many (rng w) n X _ Hrect) in Hfit; [done|].
    left. rewrite Hlen. lia.
  - destruct (Z.le_gt_cases n (Z.of_nat (length (columns df)))) as [|Hgt];
      [done|].
    rewrite (pca_fit_too_many (rng w) n X _ Hrect) in Hfit; [done|].
    right. lia.
  - destruct X as [|x X]; [done|]. apply Forall_cons in Hwidth as [Hx _].
    rewrite <- Hx, length_map, Hcomp. lia.
  - unfold wf_frame. rewrite Hrows, Hnames. apply Forall_forall.
    intros r (x & -> & Hx)%list_elem_of_fmap. rewrite length_map.
    rewrite Forall_forall in Hwidth. by apply Hwidth.
  - rewrite Hrows. apply Forall_forall. intros r (x & -> & _)%list_elem_of_fmap.
    apply Forall_forall. intros c (q & -> & _)%list_elem_of_fmap. by exists q.
Qed.

(** X5.  The two first tasks of the flow compose: on whatever frame
    [reduce_dimension] returns for a name list that contains [col1],
    [col2] and [col3], [get_3d_projection] succeeds, and each of the
    three axes has one coordinate per row of the data that was reduced. *)
Theorem projection_of_reduced
    (df : DataFrame) (n : Z) (names : list string) (w w' : world)
    (pca_df : DataFrame) :
  reduce_dimension df n names w = (Ok pca_df, w') →
  "col1" ∈ names → "col2" ∈ names → "col3" ∈ names →
  ∃ p, get_3d_projection pca_df = Ok p
       ∧ length (proj_x p) = len df
       ∧ length (proj_y p) = len df
       ∧ length (proj_z p) = len df.
Proof.
  intros Hred H1 H2 H3.
  pose proof (reduce_dimension_len _ _ _ _ _ _ Hred) as Hlen.
  apply reduce_dimension_columns in Hred. subst names.
  unfold get_3d_projection, getitem, mbind, result_bind.
  destruct (column_index_Some _ _ H1) as [i1 ->].
  destruct (column_index_Some _ _ H2) as [i2 ->].
  destruct (column_index_Some _ _ H3) as [i3 ->].
  eexists. split; [reflexivity|]. simpl. by rewrite !length_map.
Qed.
End ReduceInv.

(** A frame whose first column holds texts that read as numbers. *)
Definition text_incomes : DataFrame :=
  {| columns := ["Income"; "Age"];
     rows := [ [Txt "1"; Num 57]; [Txt "2"; Num 60]; [Txt "3"; Num 49] ] |}.

Lemma reduce_dimension_success_needs_witness :
  (∃ pca_df w',
     @reduce_dimension Reference.sklearn Reference.customers 3
       ["col1"; "col2"; "col3"] empty_world = (Ok pca_df, w')
     ∧ @numeric_frame Reference.sklearn Reference.customers
     ∧ Z.of_nat (length ["col1"; "col2"; "col3"]) = 3%Z
     ∧ len pca_df = len Reference.customers
     ∧ frames w' = frames empty_world)
  ∧ (∃ pca_df w',
       @reduce_dimension Reference.sklearn text_incomes 2 ["col1"; "col2"]
         empty_world = (Ok pca_df, w')
       ∧ @numeric_frame Reference.sklearn text_incomes
       ∧ len pca_df = len text_incomes).
Proof.
  split.
  - eassert (Hrun : @reduce_dimension Reference.sklearn Reference.customers 3
                      ["col1"; "col2"; "col3"] empty_world = (Ok _, _))
      by (vm_compute; reflexivity).
    destruct (@reduce_dimension_success_needs Reference.sklearn
                Reference.customers 3 ["col1"; "col2"; "col3"] empty_world _ _
                ltac:(repeat constructor) Hrun)
      as (Hnum & _ & _ & _ & _ & _ & Hnames & Hlen & _ & _ & _ & Hframes & _).
    eexists _, _. split; [exact Hrun|]. split_and!; assumption.
  - eassert (Hrun : @reduce_dimension Reference.sklearn text_incomes 2
                      ["col1"; "col2"] empty_world = (Ok _, _))
      by (vm_compute; reflexivity).
    destruct (@reduce_dimension_success_needs Reference.sklearn
                text_incomes 2 ["col1"; "col2"] empty_world _ _
                ltac:(repeat constructor) Hrun)
      as (Hnum & _ & _ & _ & _ & _ & _ & Hlen & _).
    eexists _, _. split; [exact Hrun|]. split; assumption.
Defined.

Lemma projection_of_reduced_witness :
  ∃ pca_df p,
    (@reduce_dimension Reference.sklearn Reference.customers 3
       ["col1"; "col2"; "col3"] empty_world).1 = Ok pca_df
    ∧ get_3d_projection pca_df = Ok p
    ∧ length (proj_x p) = len Reference.customers.
Proof.
  edestruct (@projection_of_reduced Reference.sklearn Reference.customers 3
               ["col1"; "col2"; "col3"] empty_world)
    as (p & Hp & Hx & _).
  - vm_compute. reflexivity.
  - in_list.
  - in_list.
  - in_list.
  - eexists _, p. split; [|split; [exact Hp|exact Hx]]. by vm_compute.
Defined.

(** ** [get_best_k_cluster]: the candidates need enough rows *)

Section TenRows.
Context `{!Interp, !Sklearn, !Yellowbrick}.

Lemma kelbow_scores_too_few_rows e score df ks w :
  est_class e = KMeans →
  (∃ k, k ∈ ks ∧ (Z.of_nat (len df) < k)%Z) →
  is_ok (kelbow_scores e score df ks w).1 = false.
Proof.
  revert e w. induction ks as [|k ks IH]; intros e w Hclass (k' & Hin & Hk').
  { by apply elem_of_nil in Hin. }
  simpl. unfold mbind, M_bind.
  destruct (est_fit (set_params (Some k) e) df w) as [[e1|x] w1] eqn:Hfit;
    [|done].
  apply est_fit_inv in Hfit as (X & f & HX & Hf & -> & _).
  simpl in Hf. rewrite Hclass in Hf.
  apply to_array_Ok in HX as (_ & Hlen & _).
  apply elem_of_cons in Hin as [->|Hin].
  { rewrite kmeans_fit_too_many in Hf by (rewrite Hlen; lia). done. }
  unfold lift. destruct (scoring_metric _ _ _) as [s|x]; [|done].
  specialize (IH {| est_class := est_class (set_params (Some k) e);
                    n_clusters := n_clusters (set_params (Some k) e);
                    fitted := Some f |} w1 Hclass (ex_intro _ k' (conj Hin Hk'))).
  destruct (kelbow_scores _ score df ks w1) as [[[e2 ss]|x] w2]; done.
Qed.

(** X6.  With [KMeans] the selection cannot succeed on fewer than ten
    rows: the visualizer is built without a range of its own, so the
    candidates are always 2 to 10, and fitting ten clusters needs ten
    rows. *)
Theorem get_best_k_cluster_needs_ten_rows
    (pca_df : DataFrame) (score image_path : string) (w : world) :
  (Z.of_nat (len pca_df) < 10)%Z →
  is_ok (get_best_k_cluster pca_df {| algorithm := "KMeans"; metric := score |}
           image_path w).1 = false.
Proof.
  intros Hrows.
  rewrite (get_best_k_cluster_clusterer _ _ _ _ _ _ kmeans_in_names).
  rewrite M_bind_eq. unfold lift, KElbowVisualizer.
  case_bool_decide; [|done]. rewrite M_bind_eq.
  unfold kelbow_fit. rewrite M_bind_eq.
  cbn [estimator elbow_metric k_values_].
  pose proof (kelbow_scores_too_few_rows
                (new_estimator KMeans (Some (default_n_clusters KMeans)))
                score pca_df candidate_ks w eq_refl) as Hfail.
  fold candidate_ks.
  destruct (kelbow_scores _ score pca_df _ w) as [[[e ss]|x] w1]; [|done].
  simpl in Hfail. exfalso.
  assert (Hcontra : true = false); [|done].
  apply Hfail. exists 10%Z. split; [unfold candidate_ks; in_list|done].
Qed.
End TenRows.

Definition nine_same_customers : DataFrame :=
  {| columns := ["col1"; "col2"; "col3"];
     rows := replicate 9 [Num 1; Num 2; Num 3] |}.

Lemma get_best_k_cluster_needs_ten_rows_witness :
  is_ok (@get_best_k_cluster Reference.interp Reference.sklearn
           Reference.yellowbrick nine_same_customers
           {| algorithm := "KMeans"; metric := "distortion" |}
           "image/elbow.png" empty_world).1 = false.
Proof.
  apply (@get_best_k_cluster_needs_ten_rows Reference.interp Reference.sklearn
           Reference.yellowbrick nine_same_customers "distortion"
           "image/elbow.png" empty_world).
  by vm_compute.
Defined.

(** ** [segment]: how a failure travels along the flow *)

Ltac flow_step :=
  rewrite F_bind_eq in * |-;
  match goal with
  | Hrun : context [match ?t with pair _ _ => _ end] |- _ =>
      destruct t as [? ?] eqn:?
  end.

Section Propagation.
Context `{!Interp, !Sklearn, !Yellowbrick, !Orchestration}.

Lemma task_upstream_failed {A} name (up : result (M A)) w :
  is_ok up = false → (task name up w).1 = Err "TRIGGERFAIL".
Proof. by destruct up. Qed.

Lemma artifact_task_upstream_failed name r inputs (up : result (M DataFrame)) w :
  is_ok up = false → (artifact_task name r inputs up w).1 = Err "TRIGGERFAIL".
Proof. by destruct up. Qed.

Ltac trigger_failed :=
  match goal with
  | H : task ?n ?up ?w = (?r, _) |- ?r = Err "TRIGGERFAIL" =>
      let P := fresh in
      pose proof (task_upstream_failed n up w) as P; rewrite H in P; apply P
  | H : artifact_task ?n ?res ?i ?up ?w = (?r, _) |- ?r = Err "TRIGGERFAIL" =>
      let P := fresh in
      pose proof (artifact_task_upstream_failed n res i up w) as P;
      rewrite H in P; apply P
  end;
  repeat match goal with
         | |- context [mbind _ ?x] => is_var x; destruct x
         end;
  done.

(** X7.  A task of the flow whose upstream task did not succeed is not
    run and ends in [TRIGGERFAIL]: a failed [reduce_dimension] stops the
    projection and the selection, a failed projection stops the two plots,
    a failed selection stops the fit, a failed fit stops [save_model] and
    [predict], and a failed [predict] stops the merge and the cluster
    plot. *)
Theorem segment_failures_propagate
    (config : Config) (data : DataFrame) (w w' : world) (r : FlowRun) :
  segment config data w = (r, w') →
  (is_ok (st_reduce_dimension r) = false →
     st_get_3d_projection r = Err "TRIGGERFAIL"
     ∧ st_get_best_k_cluster r = Err "TRIGGERFAIL")
  ∧ (is_ok (st_get_3d_projection r) = false →
     st_create_3d_plot r = Err "TRIGGERFAIL"
     ∧ st_plot_clusters r = Err "TRIGGERFAIL")
  ∧ (is_ok (st_get_best_k_cluster r) = false →
     st_get_clusters_model r = Err "TRIGGERFAIL")
  ∧ (is_ok (st_get_clusters_model r) = false →
     st_save_model r = Err "TRIGGERFAIL" ∧ st_predict r = Err "TRIGGERFAIL")
  ∧ (is_ok (st_predict r) = false →
     st_insert_clusters_to_df r = Err "TRIGGERFAIL"
     ∧ st_plot_clusters r = Err "TRIGGERFAIL").
Proof.
  unfold segment. intros Hrun.
  do 10 flow_step.
  cbv [mret F_ret] in Hrun. injection Hrun as <- <-.
  cbn [st_reduce_dimension st_get_3d_projection st_create_3d_plot
       st_get_best_k_cluster st_get_clusters_model st_save_model st_predict
       st_insert_clusters_to_df st_plot_clusters].
  split_and!; intros Hfail;
    match type of Hfail with is_ok ?x = false => destruct x; [done|] end;
    try split; trigger_failed.
Qed.
End Propagation.

Definition pc_config : Config :=
  {| pca_n_components := 3;
     pca_columns := ["pc1"; "pc2"; "pc3"];
     segment_config := {| algorithm := "KMeans"; metric := "distortion" |};
     model_name := "customer_segmentation_kmeans";
     image_pca := "image/pca.png";
     image_kmeans := "image/elbow.png";
     image_clusters := "image/cluster.png" |}.

Definition pc_run : FlowRun * world :=
  @segment Reference.interp Reference.sklearn Reference.yellowbrick
    Reference.fresh_run pc_config Reference.customers empty_world.

Lemma segment_failures_propagate_witness :
  st_create_3d_plot pc_run.1 = Err "TRIGGERFAIL"
  ∧ st_plot_clusters pc_run.1 = Err "TRIGGERFAIL".
Proof.
  apply (proj1 (proj2 (@segment_failures_propagate Reference.interp
                         Reference.sklearn Reference.yellowbrick
                         Reference.fresh_run pc_config Reference.customers
                         empty_world pc_run.2 pc_run.1
                         (surjective_pairing pc_run)))).
  by vm_compute.
Defined.

(** ** [segment]: the Dataset stays as it was read *)

Section Dataset.
Context `{!Interp, !Sklearn, !Yellowbrick, !Orchestration}.

Lemma task_keeps_frames {A} name (up : result (M A)) w :
  (∀ body, up = Ok body → keeps frames body) →
  frames (task name up w).2 = frames w.
Proof.
  intros Hup. unfold task. destruct up as [body|e]; [|done].
  by rewrite (Hup body eq_refl (log_run name w)).
Qed.

Lemma task_frames_eq {A} name (up : result (M A)) w res w' :
  (∀ body, up = Ok body → keeps frames body) →
  task name up w = (res, w') → frames w' = frames w.
Proof.
  intros Hup Hrun. rewrite <- (task_keeps_frames name up w Hup). by rewrite Hrun.
Qed.

Lemma task_Ok_inv {A} name (up : result (M A)) w a w' :
  task name up w = (Ok a, w') →
  ∃ body, up = Ok body ∧ body (log_run name w) = (Ok a, w').
Proof. unfold task. destruct up as [body|e]; [eauto|done]. Qed.

Lemma artifact_task_frames name r inputs (up : result (M DataFrame)) w res w' :
  (∀ body, up = Ok body → keeps frames body) →
  artifact_task name r inputs up w = (res, w') →
  (∀ l d, frames w !! l = Some d → frames w' !! l = Some d)
  ∧ (∀ l, res = Ok l → frames w !! l = None ∧ is_Some (frames w' !! l)).
Proof.
  intros Hup. unfold artifact_task. destruct up as [body|e].
  2: { by intros [= <- <-]. }
  destruct (result_location r _) as [path|e].
  2: { by intros [= <- <-]. }
  assert (Halloc : ∀ df w0, frames w0 = frames w →
            alloc df w0 = (fresh (dom (frames w)),
                           (alloc df w0).2)
            ∧ frames w !! fresh (dom (frames w)) = None
            ∧ is_Some (frames (alloc df w0).2 !! fresh (dom (frames w)))
            ∧ ∀ l d, frames w !! l = Some d →
                     frames (alloc df w0).2 !! l = Some d).
  { intros df w0 Hw0. unfold alloc. rewrite Hw0. split; [done|].
    assert (Hfresh : frames w !! fresh (dom (frames w)) = None)
      by apply not_elem_of_dom, is_fresh.
    split; [done|]. cbn [snd frames]. split.
    - rewrite lookup_insert_eq. by eexists.
    - intros l d Hl. rewrite lookup_insert_ne; [done|]. intros <-. congruence. }
  destruct (if reuse_stored_result then files w !! path else None) as [df|].
  - destruct (Halloc df w eq_refl) as (-> & Hfresh & Hnew & Hkeep).
    intros [= <- <-]. split; [done|]. by intros l [= <-].
  - specialize (Hup body eq_refl (log_run name w)).
    destruct (body (log_run name w)) as [[df|x] w1]; simpl in Hup.
    + assert (Hw2 : frames (if checkpointing then write_file path df w1 else w1)
                    = frames w) by (by destruct checkpointing).
      destruct (Halloc df _ Hw2) as (-> & Hfresh & Hnew & Hkeep).
      intros [= <- <-]. split; [done|]. by intros l [= <-].
    + intros [= <- <-]. split; [|done]. intros l d. by rewrite Hup.
Qed.

Lemma plot_clusters_other_frames l preds projections image_path w l' :
  l' ≠ l →
  frames (plot_clusters l preds projections image_path w).2 !! l'
    = frames w !! l'.
Proof.
  intros Hne. destruct (frames w !! l) as [df|] eqn:Hl.
  - destruct (frame_setitem "clusters" preds df) as [df'|x] eqn:Hset.
    + destruct (plot_clusters_assigned l preds projections image_path w df df'
                  Hl Hset) as (_ & _ & _ & ->).
      by rewrite lookup_insert_ne.
    + by rewrite (plot_clusters_refused l preds projections image_path w df x).
  - unfold plot_clusters. rewrite M_bind_eq. unfold setitem. by rewrite Hl.
Qed.

Lemma get_clusters_model_is_clusterer alg c df k w m w' :
  (alg, c) ∈ clusterer_names →
  get_clusters_model df alg k w = (Ok m, w') → ∃ e, m = ClustererObj e.
Proof.
  intros Hc. rewrite (get_clusters_model_clusterer _ _ _ _ _ Hc).
  unfold mbind, M_bind.
  destruct (est_fit _ df w) as [[e|x] w1]; [|done]. intros [= <- _]. eauto.
Qed.

Lemma deref_keeps_frames l : keeps frames (deref l).
Proof. intros w. unfold deref. by destruct (frames w !! l). Qed.

Ltac solve_frames :=
  repeat first
    [ apply keeps_ret
    | apply keeps_lift
    | apply deref_keeps_frames
    | apply reduce_dimension_keeps, frames_rng_blind
    | apply create_3d_plot_keeps_frames
    | (eapply get_best_k_cluster_keeps_frames; eassumption)
    | (eapply get_clusters_model_keeps; [apply frames_rng_blind|eassumption])
    | (apply keeps_bind; [|intros ?])
    | (intros ?; reflexivity) ].

Ltac up_keeps_frames :=
  let body := fresh "body" in
  let Hb := fresh "Hb" in
  intros body Hb;
  repeat match type of Hb with
         | context [mbind _ ?x] => is_var x; destruct x; simpl in Hb
         end;
  try discriminate Hb;
  injection Hb as <-;
  solve_frames.

Ltac flow_step_as x wx E :=
  rewrite F_bind_eq in * |-;
  match goal with
  | Hrun : context [match ?t with pair _ _ => _ end] |- _ =>
      destruct t as [x wx] eqn:E
  end.

(** X8.  One run of [segment] with an algorithm string that names a
    clustering class leaves the Dataset as it was passed in: the frame
    the flow read is still at its address when the run ends,
    every frame that was live before the run is unchanged, and the
    Reduced Dataset and the merged frame are new objects, distinct from
    the Dataset and from each other.  The merge therefore never writes
    its labels into the frame that was read. *)
Theorem segment_keeps_the_dataset
    (c : clusterer) (config : Config) (data : DataFrame) (w w' : world)
    (r : FlowRun) :
  (algorithm (segment_config config), c) ∈ clusterer_names →
  segment config data w = (r, w') →
  frames w !! data_ref r = None
  ∧ frames w' !! data_ref r = Some data
  ∧ (∀ l d, frames w !! l = Some d → frames w' !! l = Some d)
  ∧ (∀ l, st_reduce_dimension r = Ok l →
       l ≠ data_ref r ∧ frames w !! l = None)
  ∧ (∀ l, st_insert_clusters_to_df r = Ok l →
       l ≠ data_ref r ∧ frames w !! l = None
       ∧ st_reduce_dimension r ≠ Ok l).
Proof.
  destruct config as [n names [alg score] mname path1 path2 path3].
  cbn [segment_config algorithm]. intros Hc. unfold segment.
  cbn [pca_n_components pca_columns segment_config algorithm model_name
       image_pca image_kmeans image_clusters].
  intros Hrun.
  flow_step_as l0 w0 E0. flow_step_as r0 w1 E1. flow_step_as r1 w2 E2.
  flow_step_as r2 w3 E3. flow_step_as r3 w4 E4. flow_step_as r4 w5 E5.
  flow_step_as r5 w6 E6. flow_step_as r6 w7 E7. flow_step_as r7 w8 E8.
  flow_step_as r8 w9 E9.
  cbv [mret F_ret] in Hrun. injection Hrun as <- <-.
  cbn [data_ref st_reduce_dimension st_insert_clusters_to_df].
  assert (A0 : frames w !! l0 = None ∧ frames w0 = <[l0 := data]> (frames w)).
  { cbv [alloc] in E0. injection E0 as <- <-. split; [|done].
    apply not_elem_of_dom, is_fresh. }
  destruct A0 as [A0 B0].
  pose proof E1 as K1.
  eapply artifact_task_frames in K1 as [K1 N1]; [|up_keeps_frames].
  pose proof E2 as F2. eapply task_frames_eq in F2; [|up_keeps_frames].
  pose proof E3 as F3. eapply task_frames_eq in F3; [|up_keeps_frames].
  pose proof E4 as F4. eapply task_frames_eq in F4; [|up_keeps_frames].
  pose proof E5 as F5. eapply task_frames_eq in F5; [|up_keeps_frames].
  pose proof E6 as F6. eapply task_frames_eq in F6; [|up_keeps_frames].
  assert (F7 : frames w7 = frames w6).
  { eapply task_frames_eq; [|exact E7]. intros body Hb.
    destruct r4 as [m|]; [|discriminate Hb].
    apply task_Ok_inv in E5 as (body5 & Hb5 & Hrun5).
    destruct r0 as [l|]; [|discriminate Hb]. simpl in Hb. injection Hb as <-.
    destruct r3 as [k|]; [|discriminate Hb5]. simpl in Hb5.
    injection Hb5 as <-.
    rewrite M_bind_eq in Hrun5.
    destruct (deref l (log_run "get_clusters_model" w4)) as [[d|x] w4'];
      [|discriminate Hrun5].
    destruct (get_clusters_model_is_clusterer _ _ _ _ _ _ _ Hc Hrun5)
      as [e ->].
    solve_frames. }
  pose proof E8 as K8.
  eapply artifact_task_frames in K8 as [K8 N8]; [|up_keeps_frames].
  assert (P9 : ∀ l', (∀ l, r0 = Ok l → l' ≠ l) →
                     frames w9 !! l' = frames w8 !! l').
  { intros l' Hl'. unfold task in E9.
    destruct r0 as [l|]; simpl in E9;
      [|by injection E9 as <- <-].
    destruct r6 as [p|]; simpl in E9; [|by injection E9 as <- <-].
    destruct r1 as [pr|]; simpl in E9; [|by injection E9 as <- <-].
    pose proof (plot_clusters_other_frames l p pr path3
                  (log_run "plot_clusters" w8) l' (Hl' l eq_refl)) as Hp.
    rewrite E9 in Hp. exact Hp. }
  assert (D1 : frames w1 !! l0 = Some data).
  { apply K1. rewrite B0. apply lookup_insert_eq. }
  assert (F71 : frames w7 = frames w1) by congruence.
  assert (Hne : ∀ l, r0 = Ok l → l0 ≠ l).
  { intros l Hl <-. destruct (N1 _ Hl) as [Hn _].
    rewrite B0, lookup_insert_eq in Hn. discriminate Hn. }
  assert (Hold : ∀ l d, frames w !! l = Some d → frames w1 !! l = Some d).
  { intros l d Hl. apply K1. rewrite B0, lookup_insert_ne; [done|].
    intros <-. congruence. }
  split; [exact A0|]. split.
  { rewrite (P9 l0 Hne). apply K8. by rewrite F71. }
  split.
  { intros l d Hl. rewrite P9.
    - apply K8. rewrite F71. by apply Hold.
    - intros l1 Hl1 <-. destruct (N1 _ Hl1) as [Hn _].
      rewrite B0 in Hn. apply lookup_insert_None in Hn as [Hn _]. congruence. }
  split.
  { intros l Hl. destruct (N1 _ Hl) as [Hn _].
    rewrite B0 in Hn. apply lookup_insert_None in Hn as [Hn Hne'].
    split; [by intros ->|done]. }
  intros l Hl. destruct (N8 _ Hl) as [Hn _]. rewrite F71 in Hn.
  split; [intros ->; congruence|]. split.
  - destruct (frames w !! l) as [d|] eqn:Hd; [|done].
    apply Hold in Hd. congruence.
  - intros Hl0. destruct (N1 _ Hl0) as [_ [d Hd]]. congruence.
Qed.
End Dataset.

Definition kept_run : FlowRun * world :=
  @segment Reference.interp Reference.sklearn Reference.yellowbrick
    Reference.fresh_run Reference.config Reference.twelve_customers empty_world.

Lemma kmeans_is_configured :
  (algorithm (segment_config Reference.config), KMeans) ∈ clusterer_names.
Proof. in_list. Qed.

(** The reference run ends with a merged frame, and the Dataset is
    still in place. *)
Lemma segment_keeps_the_dataset_witness :
  frames kept_run.2 !! data_ref kept_run.1 = Some Reference.twelve_customers
  ∧ is_ok (st_insert_clusters_to_df kept_run.1) = true.
Proof.
  split; [|by vm_compute].
  exact (proj1 (proj2 (@segment_keeps_the_dataset Reference.interp
                         Reference.sklearn Reference.yellowbrick
                         Reference.fresh_run KMeans Reference.config
                         Reference.twelve_customers empty_world kept_run.2
                         kept_run.1 kmeans_is_configured
                         (surjective_pairing kept_run)))).
Defined.
